(** * NiftyMIC: Tikhonov-regularised reconstruction solver and registration residual

    A shallow embedding of [src/py/reconstruction/solver/TikhonovSolver.py]
    and of the residual/Jacobian part of [src/registration/Registration.py].

    NumPy arrays are flat lists of real numbers, Python exceptions are an
    explicit [result] type, and the mutable attributes of the solver object
    are threaded as a record.

    The floating-point values are idealised as reals: a statement about the
    value of an arithmetic expression is a statement about exact arithmetic
    on finite values, without rounding, overflow or underflow, and with
    [alpha >= 0] wherever [sqrt(alpha)] is taken (NumPy returns [nan] for a
    negative argument, the real square root is zero there). The module
    [Float64] repeats the zero-order operators on binary64 numbers, to show
    where the two arithmetics part. *)

From Stdlib Require Import String Ascii DecimalString.
From Stdlib Require Import Reals Lra ZArith Lia Bool List.
From Corelib Require PrimFloat.
Import ListNotations.

Set Implicit Arguments.

(** ** Python exceptions and results *)

Inductive exn : Type :=
| ValueError (msg : string)
| KeyError (key : string)
| TypeError (msg : string)
| AttributeError (name : string)
| IndexError (msg : string).

Inductive result (A : Type) : Type :=
| Ok (a : A)
| Raise (e : exn).

Arguments Ok {A} a.
Arguments Raise {A} e.

Definition rbind {A B : Type} (r : result A) (k : A -> result B) : result B :=
  match r with
  | Ok a => k a
  | Raise e => Raise e
  end.

Notation "x <- r ;; k" := (rbind r (fun x => k))
  (at level 61, r at next level, right associativity).

(** ** One-dimensional NumPy arrays *)

Module Numpy.

Definition ndarray : Type := list R.

(** [np.zeros(n)] *)
Definition zeros (n : nat) : ndarray := repeat 0%R n.

(** A slice bound as Python normalises it against the length: a negative
    bound counts from the end, and both kinds are clipped to [0, len]. *)
Definition clip_index (len : nat) (i : Z) : nat :=
  if (i <? 0)%Z then Z.to_nat (Z.max (i + Z.of_nat len) 0)
  else Nat.min (Z.to_nat i) len.

(** Bounds of [a[start:stop]]; [None] is an omitted bound. *)
Definition slice_bounds (len : nat) (start stop : option Z) : nat * nat :=
  (match start with None => 0%nat | Some i => clip_index len i end,
   match stop with None => len | Some i => clip_index len i end).

(** [a[start:stop]] *)
Definition getslice (a : ndarray) (start stop : option Z) : ndarray :=
  let '(lo, hi) := slice_bounds (length a) start stop in
  firstn (hi - lo) (skipn lo a).

(** Broadcasting of a one-dimensional value to a target of [n] entries:
    equal length, or a single entry repeated; anything else is NumPy's
    "could not broadcast" ValueError. *)
Definition broadcast_to (n : nat) (v : ndarray) : result ndarray :=
  if (length v =? n)%nat then Ok v
  else match v with
       | [c] => Ok (repeat c n)
       | _ => Raise (ValueError "could not broadcast input array")
       end.

(** [a[start:stop] = v] *)
Definition setslice (a : ndarray) (start stop : option Z) (v : ndarray)
  : result ndarray :=
  let '(lo, hi) := slice_bounds (length a) start stop in
  w <- broadcast_to (hi - lo) v ;;
  Ok (firstn lo a ++ w ++ skipn (lo + (hi - lo)) a).

(** [c * a] and [a * c] for a scalar [c] *)
Definition scalar_mul (c : R) (a : ndarray) : ndarray := map (fun v => c * v)%R a.
Definition mul_scalar (a : ndarray) (c : R) : ndarray := map (fun v => v * c)%R a.

(** Element-wise combination of two arrays of the same length. *)
Fixpoint zip_with (f : R -> R -> R) (a b : ndarray) : ndarray :=
  match a, b with
  | x :: a', y :: b' => f x y :: zip_with f a' b'
  | _, _ => []
  end.

(** A binary element-wise operator with NumPy's broadcasting rule. *)
Definition elementwise (f : R -> R -> R) (a b : ndarray) : result ndarray :=
  if (length a =? length b)%nat then Ok (zip_with f a b)
  else match a, b with
       | [x], _ => Ok (map (f x) b)
       | _, [y] => Ok (map (fun v => f v y) a)
       | _, _ => Raise (ValueError "operands could not be broadcast together")
       end.

Definition add : ndarray -> ndarray -> result ndarray := elementwise Rplus.
Definition sub : ndarray -> ndarray -> result ndarray := elementwise Rminus.
Definition mul : ndarray -> ndarray -> result ndarray := elementwise Rmult.

(** [-a] *)
Definition neg (a : ndarray) : ndarray := map Ropp a.

(** [a**2] *)
Definition square (a : ndarray) : ndarray := map (fun v => v * v)%R a.

(** [np.sum(a)] *)
Definition sum (a : ndarray) : R := fold_right Rplus 0%R a.

(** The Euclidean inner product [<a, b>] of two vectors. *)
Definition dot (a b : ndarray) : R := sum (zip_with Rmult a b).

End Numpy.

Import Numpy.

(** ** Python values used by the solver *)

Module Py.

Local Open Scope string_scope.

(** A [dict] with string keys, as used for the dispatch tables. *)
Definition dict (V : Type) : Type := list (string * V).

(** [d[key]]: the value, or [KeyError]. *)
Fixpoint getitem {V : Type} (d : dict V) (key : string) : result V :=
  match d with
  | [] => Raise (KeyError key)
  | (k, v) :: d' => if String.eqb k key then Ok v else getitem d' key
  end.

(** [x in [s1, ..., sn]] for strings *)
Definition in_list (x : string) (l : list string) : bool :=
  existsb (String.eqb x) l.

(** [str(n)] for a non-negative [int] *)
Definition str_int (n : nat) : string := NilEmpty.string_of_uint (Nat.to_uint n).

(** [s.replace(".", "p")] *)
Fixpoint replace_dots (s : string) : string :=
  match s with
  | EmptyString => EmptyString
  | String c s' => String (if Ascii.eqb c "." then "p"%char else c) (replace_dots s')
  end.

(** [c in s] for a character [c] *)
Definition contains_char (c : ascii) (s : string) : bool :=
  existsb (Ascii.eqb c) (list_ascii_of_string s).

(** The characters of the text of a float: digits, sign, point, exponent
    mark, and the letters of [inf] and [nan]. *)
Definition float_char (c : ascii) : bool :=
  contains_char c "0123456789+-.einfa".

Definition float_text (s : string) : bool :=
  forallb float_char (list_ascii_of_string s).

Definition newline : string := String "010"%char EmptyString.
Definition tab : string := String "009"%char EmptyString.

(** What the interpreter does when it turns a number into text. These are
    builtins of Python and of [datetime], not code of the repository. *)
Record Builtins : Type := {
  str_float : R -> string;          (* str(x) for a float *)
  format_3e : R -> string;          (* "%.3e" % x *)
  str_timedelta : R -> string       (* str(timedelta(seconds=x)) *)
}.

(** ["%.3e" % x] where [x] may be [None] *)
Definition percent_3e (py : Builtins) (x : option R) : result string :=
  match x with
  | Some v => Ok (format_3e py v)
  | None => Raise (TypeError "float argument required, not NoneType")
  end.

(** [str(timedelta(seconds=x))] where [x] may be [None] *)
Definition timedelta_seconds (py : Builtins) (x : option R) : result string :=
  match x with
  | Some v => Ok (str_timedelta py v)
  | None => Raise (TypeError "unsupported type for timedelta seconds component: NoneType")
  end.

End Py.

Import Py.

(** ** The solver object *)

(** The attributes of a [TikhonovSolver] instance that its methods read or
    assign. Images are kept as their flattened voxel arrays; [stdout] collects
    the printed lines. *)
Record TikhonovSolver : Type := {
  _HR_volume_itk : ndarray;
  _HR_volume_sitk : ndarray;
  _alpha : R;
  _iter_max : nat;
  _minimizer : string;
  _deconvolution_mode : string;
  _reg_type : string;
  _residual_prior : option R;
  _residual_ell2 : option R;
  _elapsed_time_sec : option R;
  stdout : list string
}.

Definition set_HR_volume_itk (v : ndarray) (s : TikhonovSolver) : TikhonovSolver :=
  {| _HR_volume_itk := v; _HR_volume_sitk := _HR_volume_sitk s;
     _alpha := _alpha s; _iter_max := _iter_max s; _minimizer := _minimizer s;
     _deconvolution_mode := _deconvolution_mode s; _reg_type := _reg_type s;
     _residual_prior := _residual_prior s; _residual_ell2 := _residual_ell2 s;
     _elapsed_time_sec := _elapsed_time_sec s; stdout := stdout s |}.

Definition set_HR_volume_sitk (v : ndarray) (s : TikhonovSolver) : TikhonovSolver :=
  {| _HR_volume_itk := _HR_volume_itk s; _HR_volume_sitk := v;
     _alpha := _alpha s; _iter_max := _iter_max s; _minimizer := _minimizer s;
     _deconvolution_mode := _deconvolution_mode s; _reg_type := _reg_type s;
     _residual_prior := _residual_prior s; _residual_ell2 := _residual_ell2 s;
     _elapsed_time_sec := _elapsed_time_sec s; stdout := stdout s |}.

Definition set_alpha (v : R) (s : TikhonovSolver) : TikhonovSolver :=
  {| _HR_volume_itk := _HR_volume_itk s; _HR_volume_sitk := _HR_volume_sitk s;
     _alpha := v; _iter_max := _iter_max s; _minimizer := _minimizer s;
     _deconvolution_mode := _deconvolution_mode s; _reg_type := _reg_type s;
     _residual_prior := _residual_prior s; _residual_ell2 := _residual_ell2 s;
     _elapsed_time_sec := _elapsed_time_sec s; stdout := stdout s |}.

Definition set_reg_type (v : string) (s : TikhonovSolver) : TikhonovSolver :=
  {| _HR_volume_itk := _HR_volume_itk s; _HR_volume_sitk := _HR_volume_sitk s;
     _alpha := _alpha s; _iter_max := _iter_max s; _minimizer := _minimizer s;
     _deconvolution_mode := _deconvolution_mode s; _reg_type := v;
     _residual_prior := _residual_prior s; _residual_ell2 := _residual_ell2 s;
     _elapsed_time_sec := _elapsed_time_sec s; stdout := stdout s |}.

Definition set_residual_prior (v : option R) (s : TikhonovSolver) : TikhonovSolver :=
  {| _HR_volume_itk := _HR_volume_itk s; _HR_volume_sitk := _HR_volume_sitk s;
     _alpha := _alpha s; _iter_max := _iter_max s; _minimizer := _minimizer s;
     _deconvolution_mode := _deconvolution_mode s; _reg_type := _reg_type s;
     _residual_prior := v; _residual_ell2 := _residual_ell2 s;
     _elapsed_time_sec := _elapsed_time_sec s; stdout := stdout s |}.

Definition set_residual_ell2 (v : option R) (s : TikhonovSolver) : TikhonovSolver :=
  {| _HR_volume_itk := _HR_volume_itk s; _HR_volume_sitk := _HR_volume_sitk s;
     _alpha := _alpha s; _iter_max := _iter_max s; _minimizer := _minimizer s;
     _deconvolution_mode := _deconvolution_mode s; _reg_type := _reg_type s;
     _residual_prior := _residual_prior s; _residual_ell2 := v;
     _elapsed_time_sec := _elapsed_time_sec s; stdout := stdout s |}.

Definition set_elapsed_time_sec (v : option R) (s : TikhonovSolver) : TikhonovSolver :=
  {| _HR_volume_itk := _HR_volume_itk s; _HR_volume_sitk := _HR_volume_sitk s;
     _alpha := _alpha s; _iter_max := _iter_max s; _minimizer := _minimizer s;
     _deconvolution_mode := _deconvolution_mode s; _reg_type := _reg_type s;
     _residual_prior := _residual_prior s; _residual_ell2 := _residual_ell2 s;
     _elapsed_time_sec := v; stdout := stdout s |}.

Definition add_stdout (line : string) (s : TikhonovSolver) : TikhonovSolver :=
  {| _HR_volume_itk := _HR_volume_itk s; _HR_volume_sitk := _HR_volume_sitk s;
     _alpha := _alpha s; _iter_max := _iter_max s; _minimizer := _minimizer s;
     _deconvolution_mode := _deconvolution_mode s; _reg_type := _reg_type s;
     _residual_prior := _residual_prior s; _residual_ell2 := _residual_ell2 s;
     _elapsed_time_sec := _elapsed_time_sec s; stdout := stdout s ++ [line] |}.

(** A method of the object: it returns a value or raises, and in both cases
    leaves the object in the state reached so far. *)
Definition method (A : Type) : Type := TikhonovSolver -> result A * TikhonovSolver.

Definition ret {A : Type} (a : A) : method A := fun s => (Ok a, s).

Definition lift {A : Type} (r : result A) : method A := fun s => (r, s).

Definition bind {A B : Type} (m : method A) (k : A -> method B) : method B :=
  fun s => match m s with
           | (Ok a, s') => k a s'
           | (Raise e, s') => (Raise e, s')
           end.

Definition get : method TikhonovSolver := fun s => (Ok s, s).

Definition modify (f : TikhonovSolver -> TikhonovSolver) : method unit :=
  fun s => (Ok tt, f s).

Definition print (line : string) : method unit := modify (add_stdout line).

Notation "x <~ m ;; k" := (bind m (fun x => k))
  (at level 61, m at next level, right associativity).
Notation "m ;;; k" := (bind m (fun _ => k))
  (at level 61, right associativity).

(** The directional derivatives of [self._differential_operations]
    (forward operators and their adjoints), on the flattened volume. *)
Record DifferentialOperations : Type := {
  Dx : ndarray -> ndarray;
  Dy : ndarray -> ndarray;
  Dz : ndarray -> ndarray;
  Dx_adj : ndarray -> ndarray;
  Dy_adj : ndarray -> ndarray;
  Dz_adj : ndarray -> ndarray
}.

(** The closures handed to the iterative solver. *)
Definition operator : Type := ndarray -> result ndarray.

(** What [TikhonovSolver] inherits from its superclass [Solver] (module
    [reconstruction.solver.Solver], which is not among the source files):
    the session constants and the inherited methods it calls, each kept as
    an opaque value or function of the flat arrays. *)
Record Solver : Type := {
  _N_stacks : nat;                          (* len(self._stacks) *)
  _N_total_slice_voxels : nat;
  _N_voxels_HR_volume : nat;
  _HR_shape_nda : nat * nat * nat;
  _MA : ndarray -> ndarray;
  _A_adj_M : ndarray -> ndarray;
  _get_M_y : ndarray;
  _get_residual_ell2 : ndarray -> R;
  _differential_operations : DifferentialOperations;
  _get_approximate_solution :
    dict (TikhonovSolver -> operator -> operator -> ndarray -> result ndarray);
  _get_itk_image_from_array_vec : ndarray -> ndarray -> result ndarray;
  get_sitk_from_itk_image : ndarray -> result ndarray;
  str_diag_predefined_covariance : result string
}.

(** ** Methods of [TikhonovSolver] *)

Section Methods.

Variable base : Solver.
Variable py : Builtins.

Local Open Scope string_scope.
Local Open Scope list_scope.

Let N := _N_voxels_HR_volume base.
Let Ns := _N_total_slice_voxels base.

(** [_A_TK0(HR_nda_vec, alpha)] *)
Definition _A_TK0 (HR_nda_vec : ndarray) (alpha : R) : result ndarray :=
  let A_x := zeros (Ns + N) in
  A_x <- setslice A_x (Some 0%Z) (Some (- Z.of_nat N)%Z) (_MA base HR_nda_vec) ;;
  A_x <- setslice A_x (Some (- Z.of_nat N)%Z) None (scalar_mul (sqrt alpha) HR_nda_vec) ;;
  Ok A_x.

(** [_A_adj_TK0(stacked_slices_nda_vec, alpha)] *)
Definition _A_adj_TK0 (stacked_slices_nda_vec : ndarray) (alpha : R) : result ndarray :=
  let A_adj_y := _A_adj_M base stacked_slices_nda_vec in
  A_adj_y <- add A_adj_y
    (mul_scalar (getslice stacked_slices_nda_vec (Some (- Z.of_nat N)%Z) None) (sqrt alpha)) ;;
  Ok A_adj_y.

(** Modelled from the spec: the first-order forward operator [_A_TK1], which
    [TikhonovSolver] inherits from [Solver] (not among the source files).
    Section 4.4: [A(x,alpha) = [MassembleForward(x); sqrt(alpha) Dx(x);
    sqrt(alpha) Dy(x); sqrt(alpha) Dz(x)]]. *)
Definition _A_TK1 (HR_nda_vec : ndarray) (alpha : R) : result ndarray :=
  let D := _differential_operations base in
  Ok (_MA base HR_nda_vec
      ++ scalar_mul (sqrt alpha) (Dx D HR_nda_vec)
      ++ scalar_mul (sqrt alpha) (Dy D HR_nda_vec)
      ++ scalar_mul (sqrt alpha) (Dz D HR_nda_vec)).

(** Modelled from the spec: the first-order adjoint operator [_A_adj_TK1],
    inherited from [Solver] (not among the source files). Section 4.4: the
    adjoint sums the three directional-derivative adjoints scaled by
    [sqrt(alpha)] plus the data-fit adjoint contribution; the three blocks
    of the regularization part are read in the order the forward operator
    writes them. *)
Definition _A_adj_TK1 (stacked_slices_nda_vec : ndarray) (alpha : R) : result ndarray :=
  let D := _differential_operations base in
  let z := stacked_slices_nda_vec in
  let zx := getslice z (Some (Z.of_nat Ns)) (Some (Z.of_nat (Ns + N))) in
  let zy := getslice z (Some (Z.of_nat (Ns + N))) (Some (Z.of_nat (Ns + 2 * N))) in
  let zz := getslice z (Some (Z.of_nat (Ns + 2 * N))) None in
  g <- add (Dx_adj D zx) (Dy_adj D zy) ;;
  g <- add g (Dz_adj D zz) ;;
  add (_A_adj_M base z) (mul_scalar g (sqrt alpha)).

(** [_get_residual_prior_TK0(HR_nda_vec)] *)
Definition _get_residual_prior_TK0 (HR_nda_vec : ndarray) : result R :=
  Ok (sum (square HR_nda_vec)).

(** [HR_nda_vec.reshape(self._HR_shape_nda)]: the data stay in the same
    order; the call raises when the sizes do not agree. *)
Definition reshape_HR (HR_nda_vec : ndarray) : result ndarray :=
  let '(n0, n1, n2) := _HR_shape_nda base in
  if (length HR_nda_vec =? n0 * n1 * n2)%nat then Ok HR_nda_vec
  else Raise (ValueError "cannot reshape array").

(** [_get_residual_prior_TK1(HR_nda_vec)] *)
Definition _get_residual_prior_TK1 (HR_nda_vec : ndarray) : result R :=
  HR_nda <- reshape_HR HR_nda_vec ;;
  let Dx := Dx (_differential_operations base) HR_nda in
  let Dy := Dy (_differential_operations base) HR_nda in
  let Dz := Dz (_differential_operations base) HR_nda in
  Ok (sum (square Dx) + sum (square Dy) + sum (square Dz))%R.

(** The three dispatch tables built by [__init__]. *)
Definition _A : dict (ndarray -> R -> result ndarray) :=
  [("TK0", _A_TK0); ("TK1", _A_TK1)].

Definition _A_adj : dict (ndarray -> R -> result ndarray) :=
  [("TK0", _A_adj_TK0); ("TK1", _A_adj_TK1)].

Definition _get_residual_prior : dict (ndarray -> result R) :=
  [("TK0", _get_residual_prior_TK0); ("TK1", _get_residual_prior_TK1)].

(** [__init__]: [after_super] is the object as [Solver.__init__] leaves it;
    the constructor then stores [reg_type] as given and clears both
    residuals. *)
Definition __init__ (after_super : TikhonovSolver) (reg_type : string) : TikhonovSolver :=
  set_residual_ell2 None (set_residual_prior None (set_reg_type reg_type after_super)).

(** [set_regularization_type(reg_type)] *)
Definition set_regularization_type (reg_type : string) : method unit :=
  if negb (in_list reg_type ["TK0"; "TK1"]) then
    lift (Raise (ValueError
      "Error: regularization type can only be either 'TK0' or 'TK1'"))
  else modify (set_reg_type reg_type).

(** [get_regularization_type()] *)
Definition get_regularization_type : method string :=
  s <~ get ;; ret (_reg_type s).

(** [compute_statistics()] *)
Definition compute_statistics : method unit :=
  s <~ get ;;
  let HR_nda_vec := _HR_volume_sitk s in
  modify (set_residual_ell2 (Some (_get_residual_ell2 base HR_nda_vec))) ;;;
  f <~ lift (getitem _get_residual_prior (_reg_type s)) ;;
  prior <~ lift (f HR_nda_vec) ;;
  modify (set_residual_prior (Some prior)).

(** [x + alpha*y] on attributes that may still be [None] *)
Definition cost_of (ell2 prior : option R) (alpha : R) : result R :=
  match ell2, prior with
  | Some e, Some p => Ok (e + alpha * p)%R
  | _, _ => Raise (TypeError "unsupported operand type(s): NoneType")
  end.

(** [get_final_cost()] *)
Definition get_final_cost : method R :=
  s <~ get ;;
  (match _residual_ell2 s, _residual_prior s with
   | Some _, Some _ => ret tt
   | _, _ => compute_statistics
   end) ;;;
  s <~ get ;;
  lift (cost_of (_residual_ell2 s) (_residual_prior s) (_alpha s)).

(** [print_statistics()] *)
Definition print_statistics : method unit :=
  s <~ get ;;
  print (newline ++ "Statistics for performed reconstruction with "
         ++ _reg_type s ++ "-regularization:") ;;;
  t <~ lift (timedelta_seconds py (_elapsed_time_sec s)) ;;
  print (tab ++ "Elapsed time: " ++ t) ;;;
  r <~ lift (percent_3e py (_residual_ell2 s)) ;;
  print (tab ++ "ell^2-residual sum_k ||M_k(A_k x - y_k)||_2^2 = " ++ r) ;;;
  r <~ lift (percent_3e py (_residual_prior s)) ;;
  print (tab ++ "prior residual = " ++ r).

(** [get_setting_specific_filename(prefix)] *)
Definition get_setting_specific_filename (s : TikhonovSolver) (prefix : string) : string :=
  let filename := prefix in
  let filename := (filename ++ "_stacks" ++ str_int (_N_stacks base))%string in
  let filename :=
    if Rlt_dec 0 (_alpha s) then (filename ++ "_" ++ _reg_type s)%string
    else filename in
  let filename := (filename ++ "_" ++ _minimizer s)%string in
  let filename := (filename ++ "_alpha" ++ str_float py (_alpha s))%string in
  let filename := (filename ++ "_itermax" ++ str_int (_iter_max s))%string in
  let filename := replace_dots filename in
  filename.

(** [_get_b(N_voxels)] *)
Definition _get_b (N_voxels : nat) : result ndarray :=
  let b := zeros N_voxels in
  b <- setslice b (Some 0%Z) (Some (Z.of_nat Ns)) (_get_M_y base) ;;
  Ok b.

(** [run_reconstruction()], first statement: the number of entries of the
    augmented linear system, chosen from the regularization type. *)
Definition compute_N_voxels : method nat :=
  s <~ get ;;
  if in_list (_reg_type s) ["TK0"] then
    print "Chosen regularization type: zero-order Tikhonov" ;;;
    ret (Ns + N)%nat
  else
    print "Chosen regularization type: first-order Tikhonov" ;;;
    ret (Ns + 3 * N)%nat.

(** [run_reconstruction()], the report of the settings that follows. *)
Definition print_settings : method unit :=
  s <~ get ;;
  (if in_list (_deconvolution_mode s) ["only_in_plane"] then
     print "(Only in-plane deconvolution is performed)"
   else if in_list (_deconvolution_mode s) ["predefined_covariance"] then
     d <~ lift (str_diag_predefined_covariance base) ;;
     print ("(Predefined covariance used: cov = diag(" ++ d ++ "))")
   else ret tt) ;;;
  print ("Minimizer: " ++ _minimizer s) ;;;
  print ("Regularization parameter: " ++ str_float py (_alpha s)) ;;;
  print ("Maximum number of iterations: " ++ str_int (_iter_max s)).

(** The closures [A_fw] and [A_bw]: the table is looked up with the
    object's regularization type each time the closure is called. *)
Definition A_fw (s : TikhonovSolver) : operator :=
  fun x => f <- getitem _A (_reg_type s) ;; f x (_alpha s).

Definition A_bw (s : TikhonovSolver) : operator :=
  fun x => f <- getitem _A_adj (_reg_type s) ;; f x (_alpha s).

(** [run_reconstruction()] up to and including the call of the minimizer:
    the right-hand side, the lookup in the solver table, and the solve. *)
Definition run_solver : method ndarray :=
  N_voxels <~ compute_N_voxels ;;
  print_settings ;;;
  b <~ lift (_get_b N_voxels) ;;
  self <~ get ;;
  solver <~ lift (getitem (_get_approximate_solution base) (_minimizer self)) ;;
  lift (solver self (A_fw self) (A_bw self) b).

(** [run_reconstruction()]; [time_start] and [time_end] are the two readings
    of [time.time()]. *)
Definition run_reconstruction (time_start time_end : R) : method unit :=
  HR_nda_vec <~ run_solver ;;
  modify (set_elapsed_time_sec (Some (time_end - time_start)%R)) ;;;
  self <~ get ;;
  itk <~ lift (_get_itk_image_from_array_vec base HR_nda_vec (_HR_volume_itk self)) ;;
  modify (set_HR_volume_itk itk) ;;;
  sitk <~ lift (get_sitk_from_itk_image base itk) ;;
  modify (set_HR_volume_sitk sitk).

End Methods.

(** ** Sequences of calls on one solver object *)

(** The public methods of [TikhonovSolver] as a caller invokes them. *)
Inductive call : Type :=
| SetRegularizationType (reg_type : string)
| GetRegularizationType
| ComputeStatistics
| GetFinalCost
| PrintStatistics
| GetSettingSpecificFilename (prefix : string)
| RunReconstruction (time_start time_end : R).

(** The object after one call, whether the call returned or raised. *)
Definition perform (base : Solver) (py : Builtins) (c : call) (s : TikhonovSolver)
  : TikhonovSolver :=
  match c with
  | SetRegularizationType reg_type => snd (set_regularization_type reg_type s)
  | GetRegularizationType => snd (get_regularization_type s)
  | ComputeStatistics => snd (compute_statistics base s)
  | GetFinalCost => snd (get_final_cost base s)
  | PrintStatistics => snd (print_statistics py s)
  | GetSettingSpecificFilename _ => s
  | RunReconstruction time_start time_end =>
      snd (run_reconstruction base py time_start time_end s)
  end.

(** The object after a sequence of calls, in order. *)
Definition perform_all (base : Solver) (py : Builtins) (calls : list call)
  (s : TikhonovSolver) : TikhonovSolver :=
  fold_left (fun s c => perform base py c s) calls s.

(** The calls that fill the cached residuals. *)
Definition computes_statistics (c : call) : bool :=
  match c with
  | ComputeStatistics | GetFinalCost => true
  | _ => false
  end.

(** ** The registration collaborator: residual and Jacobian *)

Module Registration.

(** A row of the spatial Jacobian after [reshape(-1,3)]. *)
Definition vec3 : Type := (R * R * R)%type.

(** One entry of the transform gradient after [reshape(-1,3,dof)]: three
    rows of [dof] entries. *)
Definition mat3 : Type := (ndarray * ndarray * ndarray)%type.

Definition matrix : Type := list ndarray.

(** The images and ITK filters the class works with; they are outside the
    repository and enter as given arrays and functions of the parameters. *)
Record Filters : Type := {
  fixed_nda : ndarray;                       (* GetArrayFromImage(self._fixed.sitk) *)
  fixed_mask_nda : ndarray;                  (* GetArrayFromImage(self._fixed.sitk_mask) *)
  fixed_size_prod : nat;                     (* np.array(self._fixed_size).prod() *)
  number_of_parameters : nat;                (* GetNumberOfParameters() *)
  filter_output : list R -> ndarray;         (* GetOutput() after Update() *)
  filter_jacobian : list R -> list vec3;     (* GetJacobian() after Update() *)
  gradient_transform : list R -> list mat3   (* output of the gradient filter *)
}.

(** The attributes of a [Registration] object used below. An attribute that
    only [_initialize_class] assigns is [None] until then: reading it raises
    [AttributeError]. Of [_fixed_affine_transform_sitk] only its presence
    matters here; its value is used inside the ITK filter. *)
Record Registration : Type := {
  _use_fixed_mask : bool;
  _dof_transform : nat;
  _fixed_affine_transform_sitk : option unit;
  _fixed_voxels : option nat;
  _nda_mask : option ndarray
}.

(** Reading the attribute [name] of an object. *)
Definition getattr {A : Type} (name : string) (value : option A) : result A :=
  match value with
  | Some a => Ok a
  | None => Raise (AttributeError name)
  end.

(** What the oriented Gaussian filter hands back: the filtered image, or
    its Jacobian with respect to the spatial coordinates. *)
Definition filter_result (use_jacobian : bool) : Type :=
  if use_jacobian then list vec3 else ndarray.

Section Methods.

Variable itk : Filters.

(** [__init__]: none of the attributes of the fixed image exists yet, nor
    does the mask array; they are only assigned by [_initialize_class]. *)
Definition __init__ (use_fixed_mask : bool) : Registration :=
  {| _use_fixed_mask := use_fixed_mask;
     _dof_transform := number_of_parameters itk;
     _fixed_affine_transform_sitk := None;
     _fixed_voxels := None;
     _nda_mask := None |}.

(** [use_fixed_mask(flag)] *)
Definition use_fixed_mask (flag : bool) (self : Registration) : Registration :=
  {| _use_fixed_mask := flag;
     _dof_transform := _dof_transform self;
     _fixed_affine_transform_sitk := _fixed_affine_transform_sitk self;
     _fixed_voxels := _fixed_voxels self;
     _nda_mask := _nda_mask self |}.

(** [_initialize_class()] *)
Definition _initialize_class (self : Registration) : Registration :=
  {| _use_fixed_mask := _use_fixed_mask self;
     _dof_transform := _dof_transform self;
     _fixed_affine_transform_sitk := Some tt;
     _fixed_voxels := Some (fixed_size_prod itk);
     _nda_mask := if _use_fixed_mask self then Some (fixed_mask_nda itk)
                  else _nda_mask self |}.

(** Reading [self._nda_mask]. *)
Definition get_nda_mask (self : Registration) : result ndarray :=
  getattr "_nda_mask" (_nda_mask self).

(** [_execute_oriented_gaussian_interpolate_image_filter(parameters,
    use_jacobian)]: the first attribute of the object it reads is
    [_fixed_affine_transform_sitk]; the filter itself is outside the
    repository. *)
Definition _execute_oriented_gaussian_interpolate_image_filter
  (self : Registration) (parameters : list R) (use_jacobian : bool)
  : result (filter_result use_jacobian) :=
  _ <- getattr "_fixed_affine_transform_sitk" (_fixed_affine_transform_sitk self) ;;
  match use_jacobian as b return result (filter_result b) with
  | false => Ok (filter_output itk parameters)
  | true => Ok (filter_jacobian itk parameters)
  end.

(** [_get_residual_data_fit(parameters)] *)
Definition _get_residual_data_fit (self : Registration) (parameters : list R)
  : result ndarray :=
  Ak_vol_itk <-
    _execute_oriented_gaussian_interpolate_image_filter self parameters false ;;
  let nda_fixed := fixed_nda itk in
  let nda_Ak_vol : ndarray := Ak_vol_itk in
  residual <- sub nda_fixed nda_Ak_vol ;;
  residual <-
    (if _use_fixed_mask self then
       mask <- get_nda_mask self ;; mul residual mask
     else Ok residual) ;;
  Ok residual.

(** [v.dot(M)] for a 3-vector and a 3-by-dof matrix. *)
Definition dot3 (v : vec3) (M : mat3) : ndarray :=
  let '(v0, v1, v2) := v in
  let '(r0, r1, r2) := M in
  zip_with Rplus (zip_with Rplus (scalar_mul v0 r0) (scalar_mul v1 r1))
           (scalar_mul v2 r2).

Definition getrow {A : Type} (l : list A) (i : nat) : result A :=
  match nth_error l i with
  | Some a => Ok a
  | None => Raise (IndexError "index is out of bounds")
  end.

(** [jacobian_nda[i,:] = row] *)
Definition setrow (jac : matrix) (i : nat) (row : ndarray) : result matrix :=
  old <- getrow jac i ;;
  new <- broadcast_to (length old) row ;;
  Ok (firstn i jac ++ new :: skipn (S i) jac).

(** The loop [for i in range(0, self._fixed_voxels)] that fills the rows. *)
Fixpoint fill_rows (g : list vec3) (T : list mat3) (idx : list nat) (jac : matrix)
  : result matrix :=
  match idx with
  | [] => Ok jac
  | i :: idx' =>
      gi <- getrow g i ;;
      Ti <- getrow T i ;;
      jac <- setrow jac i (dot3 gi Ti) ;;
      fill_rows g T idx' jac
  end.

(** [jacobian_nda * mask[:, np.newaxis]] *)
Definition mul_rows (jac : matrix) (mask : ndarray) : result matrix :=
  if (length jac =? length mask)%nat then
    Ok (map (fun '(row, m) => mul_scalar row m) (combine jac mask))
  else match jac, mask with
       | _, [m] => Ok (map (fun row => mul_scalar row m) jac)
       | [row], _ => Ok (map (fun m => mul_scalar row m) mask)
       | _, _ => Raise (ValueError "operands could not be broadcast together")
       end.

(** [_get_jacobian_residual_data_fit(parameters)] *)
Definition _get_jacobian_residual_data_fit (self : Registration) (parameters : list R)
  : result matrix :=
  fixed_voxels <- getattr "_fixed_voxels" (_fixed_voxels self) ;;
  let jacobian_nda := repeat (zeros (_dof_transform self)) fixed_voxels in
  jacobian_spatial_Ak_vol_itk <-
    _execute_oriented_gaussian_interpolate_image_filter self parameters true ;;
  let nda_gradient_filter_vec : list vec3 := jacobian_spatial_Ak_vol_itk in
  _ <- (if (_dof_transform self <=? length parameters)%nat then Ok tt
        else Raise (IndexError "index is out of bounds")) ;;
  let nda_gradient_transform := gradient_transform itk parameters in
  jacobian_nda <- fill_rows nda_gradient_filter_vec nda_gradient_transform
                    (seq 0 fixed_voxels) jacobian_nda ;;
  jacobian_nda <-
    (if _use_fixed_mask self then
       mask <- get_nda_mask self ;; mul_rows jacobian_nda mask
     else Ok jacobian_nda) ;;
  Ok (map neg jacobian_nda).

End Methods.

End Registration.

(** ** The registration run *)

Module RegistrationRun.

Import Registration.

(** The attributes of a [Registration] object that [run_registration] and
    the accessors work with, next to those of the record [Registration]. An
    attribute that has not been assigned yet is [None]: the constructor
    never assigns [_elapsed_time_sec]. *)
Record Session : Type := {
  self : Registration;
  _use_verbose : bool;
  _parameters : list (option R);
  _elapsed_time_sec : option R
}.

Section Methods.

Variable itk : Filters.

(** [scipy.optimize.least_squares(fun=fun, x0=x0, jac=jac, method='trf',
    loss='linear', verbose=verbose).x]; the optimizer is outside the
    repository. *)
Variable least_squares :
  (list R -> result ndarray) -> ndarray -> (list R -> result matrix) -> nat
  -> result ndarray.

(** [_get_residual_ell2(parameters)] *)
Definition _get_residual_ell2 (obj : Registration) (parameters : list R) : result R :=
  residual_data_fit <- _get_residual_data_fit itk obj parameters ;;
  Ok (sum (square residual_data_fit)).

(** [Registration(fixed, moving, use_fixed_mask, alpha_cut, use_verbose)] *)
Definition new (use_fixed_mask use_verbose : bool) : Session :=
  {| self := __init__ itk use_fixed_mask;
     _use_verbose := use_verbose;
     _parameters := repeat None (number_of_parameters itk);
     _elapsed_time_sec := None |}.

(** [get_parameters()] *)
Definition get_parameters (r : Session) : list (option R) := _parameters r.

(** [use_verbose(flag)] and [get_verbose()] *)
Definition use_verbose (flag : bool) (r : Session) : Session :=
  {| self := self r; _use_verbose := flag;
     _parameters := _parameters r; _elapsed_time_sec := _elapsed_time_sec r |}.

Definition get_verbose (r : Session) : bool := _use_verbose r.

(** [print_statistics()]: the line it prints, or the exception of reading
    an attribute that does not exist. *)
Definition print_statistics (py : Builtins) (r : Session) : result string :=
  match _elapsed_time_sec r with
  | Some t => Ok (tab ++ "Elapsed time = " ++ str_timedelta py t)%string
  | None => Raise (AttributeError "_elapsed_time_sec")
  end.

(** [run_registration()]; [time_start] and [time_end] are the two readings
    of [time.time()]. *)
Definition run_registration (time_start time_end : R) (r : Session)
  : result unit * Session :=
  let obj := _initialize_class itk (self r) in
  let verbose := if _use_verbose r then 2%nat else 0%nat in
  let fun_ := fun x => _get_residual_data_fit itk obj x in
  let jac := fun x => _get_jacobian_residual_data_fit itk obj x in
  let x0 := zeros (_dof_transform obj) in
  match least_squares fun_ x0 jac verbose with
  | Ok x =>
      (Ok tt,
       {| self := obj; _use_verbose := _use_verbose r;
          _parameters := map Some x;
          _elapsed_time_sec := Some (time_end - time_start)%R |})
  | Raise e =>
      (Raise e,
       {| self := obj; _use_verbose := _use_verbose r;
          _parameters := _parameters r;
          _elapsed_time_sec := _elapsed_time_sec r |})
  end.

End Methods.

End RegistrationRun.

(** ** Notions used to state the properties *)

(** A method keeps [field] when the object has the same [field] after the
    call, whether the call returned or raised. *)
Definition keeps {X : Type} (field : TikhonovSolver -> X) {A : Type}
  (m : method A) : Prop :=
  forall s, field (snd (m s)) = field s.

(** The part of the characters of the file name that depends on [alpha];
    the characters before and after it do not. *)
Definition filename_middle (py : Builtins) (s : TikhonovSolver) : list ascii :=
  (if Rlt_dec 0 (_alpha s)
   then "_"%char :: list_ascii_of_string (replace_dots (_reg_type s))
   else [])
  ++ ("_"%char :: list_ascii_of_string (replace_dots (_minimizer s)))
  ++ "_"%char :: (list_ascii_of_string "alpha"
                  ++ list_ascii_of_string (replace_dots (str_float py (_alpha s)))).

(** The rows [g[i,:].dot(T[i,:,:])] of the registration Jacobian, one per
    voxel. *)
Definition product_rows (g : list Registration.vec3) (T : list Registration.mat3)
  : Registration.matrix :=
  map (fun p => Registration.dot3 (fst p) (snd p)) (combine g T).

(** A row scaled by its mask value and negated. *)
Definition masked_row (p : ndarray * R) : ndarray :=
  neg (mul_scalar (fst p) (snd p)).

(** ** Contracts of the registration filters *)

(** The sizes the ITK filters guarantee for one parameter vector: every
    array has one entry per voxel of the fixed image, the transform gradient
    has [dof] columns, and the parameter vector has at least [dof]
    entries. *)
Record filter_shapes_ok (itk : Registration.Filters) (dof : nat)
  (parameters : list R) : Prop := {
  parameters_length : (dof <= length parameters)%nat;
  fixed_length : length (Registration.fixed_nda itk) = Registration.fixed_size_prod itk;
  output_length :
    length (Registration.filter_output itk parameters)
    = Registration.fixed_size_prod itk;
  mask_length :
    length (Registration.fixed_mask_nda itk) = Registration.fixed_size_prod itk;
  jacobian_length :
    length (Registration.filter_jacobian itk parameters)
    = Registration.fixed_size_prod itk;
  gradient_length :
    length (Registration.gradient_transform itk parameters)
    = Registration.fixed_size_prod itk;
  gradient_columns :
    Forall (fun M : Registration.mat3 =>
              let '(r0, r1, r2) := M in
              length r0 = dof /\ length r1 = dof /\ length r2 = dof)
           (Registration.gradient_transform itk parameters)
}.

(** ** A small registration problem

    A fixed slice of two voxels, the second masked out, and a rigid
    transform of six parameters. *)

Module RegistrationDemo.

Local Open Scope R_scope.

Definition unit_rows : Registration.mat3 :=
  ([1; 0; 0; 0; 0; 0], [0; 1; 0; 0; 0; 0], [0; 0; 1; 0; 0; 0]).

Definition itk : Registration.Filters :=
  {| Registration.fixed_nda := [5; 7];
     Registration.fixed_mask_nda := [1; 0];
     Registration.fixed_size_prod := 2;
     Registration.number_of_parameters := 6;
     Registration.filter_output := fun _ => [1; 2];
     Registration.filter_jacobian := fun _ => [(1, 0, 0); (0, 1, 0)];
     Registration.gradient_transform := fun _ => [unit_rows; unit_rows] |}.

(** The same problem with a mask that keeps both voxels. *)
Definition itk_full_mask : Registration.Filters :=
  {| Registration.fixed_nda := [5; 7];
     Registration.fixed_mask_nda := [1; 1];
     Registration.fixed_size_prod := 2;
     Registration.number_of_parameters := 6;
     Registration.filter_output := fun _ => [1; 2];
     Registration.filter_jacobian := fun _ => [(1, 0, 0); (0, 1, 0)];
     Registration.gradient_transform := fun _ => [unit_rows; unit_rows] |}.

(** A stand-in for the optimizer: it evaluates the residual at the start
    value and returns that start value. *)
Definition least_squares_at_start
  (f : list R -> result ndarray) (x0 : ndarray)
  (jac : list R -> result Registration.matrix) (verbose : nat) : result ndarray :=
  _ <- f x0 ;; Ok x0.

End RegistrationDemo.

(** ** A small concrete session

    A volume of two voxels (shape 1 x 1 x 2) observed through two slice
    voxels, used to run the definitions on concrete data. *)

Module Demo.

Local Open Scope R_scope.
Local Open Scope string_scope.
Local Open Scope list_scope.

(** The masked forward model [[1 1; 0 1]] and its transpose; the adjoint
    reads the first two entries of the vector it is given. *)
Definition MA (x : ndarray) : ndarray :=
  match x with
  | [x0; x1] => [x0 + x1; x1]
  | _ => zeros 2
  end.

Definition A_adj_M (z : ndarray) : ndarray :=
  match z with
  | z0 :: z1 :: _ => [z0; z0 + z1]
  | _ => zeros 2
  end.

(** Forward difference with zero boundary along the axis of two voxels,
    and its transpose. Along the two axes of one voxel the same stencil is
    the negation. *)
Definition forward_difference (u : ndarray) : ndarray :=
  match u with
  | [u0; u1] => [u1 - u0; - u1]
  | _ => zeros 2
  end.

Definition forward_difference_adj (v : ndarray) : ndarray :=
  match v with
  | [v0; v1] => [- v0; v0 - v1]
  | _ => zeros 2
  end.

Definition differential_operations : DifferentialOperations :=
  {| Dx := forward_difference; Dy := neg; Dz := neg;
     Dx_adj := forward_difference_adj; Dy_adj := neg; Dz_adj := neg |}.

Definition M_y : ndarray := [3; 2].

(** [sum_k ||M_k (y_k - A_k x)||^2] *)
Definition residual_ell2 (x : ndarray) : R :=
  sum (square (zip_with Rminus M_y (MA x))).

(** A stand-in for the iterative minimizer: one Landweber step of size 1/2
    from the current volume, through the two closures. *)
Definition landweber_step (self : TikhonovSolver) (A_fw A_bw : operator)
  (b : ndarray) : result ndarray :=
  let x0 := _HR_volume_itk self in
  r <- A_fw x0 ;;
  d <- sub b r ;;
  g <- A_bw d ;;
  add x0 (scalar_mul (1 / 2) g).

Definition itk_image_from_array_vec (v ref : ndarray) : result ndarray :=
  if (length v =? length ref)%nat then Ok v
  else Raise (ValueError "cannot reshape array").

Definition base : Solver :=
  {| _N_stacks := 1;
     _N_total_slice_voxels := 2;
     _N_voxels_HR_volume := 2;
     _HR_shape_nda := (1, 1, 2)%nat;
     _MA := MA;
     _A_adj_M := A_adj_M;
     _get_M_y := M_y;
     _get_residual_ell2 := residual_ell2;
     _differential_operations := differential_operations;
     _get_approximate_solution := [("lsmr", landweber_step)];
     _get_itk_image_from_array_vec := itk_image_from_array_vec;
     get_sitk_from_itk_image := fun v => Ok v;
     str_diag_predefined_covariance := Ok "[1. 1. 1.]" |}.

(** Python's texts for the numbers that occur in the examples. *)
Definition py : Builtins :=
  {| str_float := fun x =>
       if Req_dec_T x 0 then "0.0"
       else if Req_dec_T x (3 / 100) then "0.03"
       else if Req_dec_T x 10 then "10.0"
       else "nan";
     format_3e := fun _ => "0.000e+00";
     str_timedelta := fun _ => "0:00:00" |}.

(** The object as the superclass constructor leaves it: zero volume and the
    given settings. *)
Definition after_super (alpha : R) (minimizer : string) : TikhonovSolver :=
  {| _HR_volume_itk := [0; 0];
     _HR_volume_sitk := [0; 0];
     _alpha := alpha;
     _iter_max := 10;
     _minimizer := minimizer;
     _deconvolution_mode := "full_3D";
     _reg_type := EmptyString;
     _residual_prior := None;
     _residual_ell2 := None;
     _elapsed_time_sec := None;
     stdout := [] |}.

(** [TikhonovSolver(stacks, HR_volume, alpha=alpha, reg_type=reg_type,
    minimizer=minimizer)] *)
Definition new (alpha : R) (reg_type minimizer : string) : TikhonovSolver :=
  __init__ (after_super alpha minimizer) reg_type.

(** The session with a minimizer that returns a fixed volume and an image
    conversion that fails. *)
Definition base_failing_conversion : Solver :=
  {| _N_stacks := 1;
     _N_total_slice_voxels := 2;
     _N_voxels_HR_volume := 2;
     _HR_shape_nda := (1, 1, 2)%nat;
     _MA := MA;
     _A_adj_M := A_adj_M;
     _get_M_y := M_y;
     _get_residual_ell2 := residual_ell2;
     _differential_operations := differential_operations;
     _get_approximate_solution := [("lsmr", fun _ _ _ _ => Ok [1; 1])];
     _get_itk_image_from_array_vec := itk_image_from_array_vec;
     get_sitk_from_itk_image :=
       fun _ => Raise (ValueError "conversion to SimpleITK failed");
     str_diag_predefined_covariance := Ok "[1. 1. 1.]" |}.

(** A session whose volume grid has no voxel. *)
Definition base_empty_volume : Solver :=
  {| _N_stacks := 1;
     _N_total_slice_voxels := 2;
     _N_voxels_HR_volume := 0;
     _HR_shape_nda := (0, 0, 0)%nat;
     _MA := fun _ => [0; 0];
     _A_adj_M := fun _ => [];
     _get_M_y := M_y;
     _get_residual_ell2 := fun _ => 13;
     _differential_operations := differential_operations;
     _get_approximate_solution := [("lsmr", landweber_step)];
     _get_itk_image_from_array_vec := itk_image_from_array_vec;
     get_sitk_from_itk_image := fun v => Ok v;
     str_diag_predefined_covariance := Ok "[1. 1. 1.]" |}.

(** The session with a differential operator whose adjoint along the axis
    of two voxels is not the transpose of the forward stencil but the
    forward stencil once more; the data-fit halves are as before. *)
Definition base_unmatched_derivative : Solver :=
  {| _N_stacks := 1;
     _N_total_slice_voxels := 2;
     _N_voxels_HR_volume := 2;
     _HR_shape_nda := (1, 1, 2)%nat;
     _MA := MA;
     _A_adj_M := A_adj_M;
     _get_M_y := M_y;
     _get_residual_ell2 := residual_ell2;
     _differential_operations :=
       {| Dx := forward_difference; Dy := neg; Dz := neg;
          Dx_adj := forward_difference; Dy_adj := neg; Dz_adj := neg |};
     _get_approximate_solution := [("lsmr", landweber_step)];
     _get_itk_image_from_array_vec := itk_image_from_array_vec;
     get_sitk_from_itk_image := fun v => Ok v;
     str_diag_predefined_covariance := Ok "[1. 1. 1.]" |}.

End Demo.

(** ** The zero-order operators in binary64 arithmetic

    NumPy computes with [float64] values. The methods [_A_TK0] and
    [_A_adj_TK0] are repeated here on binary64 numbers, every product, sum
    and square root rounded as IEEE 754 prescribes, to compare what the
    interpreter computes with the identities of real arithmetic. *)

Module Float64.

Import PrimFloat.

Definition ndarray : Type := list float.

(** [np.zeros(n)] *)
Definition zeros (n : nat) : ndarray := repeat 0%float n.

(** [a[start:stop]], broadcasting and [a[start:stop] = v], as in [Numpy]. *)
Definition getslice (a : ndarray) (start stop : option Z) : ndarray :=
  let '(lo, hi) := slice_bounds (length a) start stop in
  firstn (hi - lo) (skipn lo a).

Definition broadcast_to (n : nat) (v : ndarray) : result ndarray :=
  if (length v =? n)%nat then Ok v
  else match v with
       | [c] => Ok (repeat c n)
       | _ => Raise (ValueError "could not broadcast input array")
       end.

Definition setslice (a : ndarray) (start stop : option Z) (v : ndarray)
  : result ndarray :=
  let '(lo, hi) := slice_bounds (length a) start stop in
  w <- broadcast_to (hi - lo) v ;;
  Ok (firstn lo a ++ w ++ skipn (lo + (hi - lo)) a).

(** [c * a] and [a * c] for a scalar [c] *)
Definition scalar_mul (c : float) (a : ndarray) : ndarray :=
  map (fun v => c * v)%float a.
Definition mul_scalar (a : ndarray) (c : float) : ndarray :=
  map (fun v => v * c)%float a.

Fixpoint zip_with (f : float -> float -> float) (a b : ndarray) : ndarray :=
  match a, b with
  | x :: a', y :: b' => f x y :: zip_with f a' b'
  | _, _ => []
  end.

(** [a + b] with NumPy's broadcasting rule *)
Definition add (a b : ndarray) : result ndarray :=
  if (length a =? length b)%nat then Ok (zip_with PrimFloat.add a b)
  else match a, b with
       | [x], _ => Ok (map (fun v => x + v)%float b)
       | _, [y] => Ok (map (fun v => v + y)%float a)
       | _, _ => Raise (ValueError "operands could not be broadcast together")
       end.

(** The inner product [<a, b>], the products added up from the first one
    on. *)
Definition dot (a b : ndarray) : float :=
  fold_left PrimFloat.add (zip_with PrimFloat.mul a b) 0%float.

(** What the two methods use of the superclass. *)
Record Solver : Type := {
  _N_total_slice_voxels : nat;
  _N_voxels_HR_volume : nat;
  _MA : ndarray -> ndarray;
  _A_adj_M : ndarray -> ndarray
}.

Section Methods.

Variable base : Solver.

Let N := _N_voxels_HR_volume base.
Let Ns := _N_total_slice_voxels base.

(** [_A_TK0(HR_nda_vec, alpha)] *)
Definition _A_TK0 (HR_nda_vec : ndarray) (alpha : float) : result ndarray :=
  let A_x := zeros (Ns + N) in
  A_x <- setslice A_x (Some 0%Z) (Some (- Z.of_nat N)%Z) (_MA base HR_nda_vec) ;;
  A_x <- setslice A_x (Some (- Z.of_nat N)%Z) None (scalar_mul (sqrt alpha) HR_nda_vec) ;;
  Ok A_x.

(** [_A_adj_TK0(stacked_slices_nda_vec, alpha)] *)
Definition _A_adj_TK0 (stacked_slices_nda_vec : ndarray) (alpha : float)
  : result ndarray :=
  let A_adj_y := _A_adj_M base stacked_slices_nda_vec in
  A_adj_y <- add A_adj_y
    (mul_scalar (getslice stacked_slices_nda_vec (Some (- Z.of_nat N)%Z) None)
                (sqrt alpha)) ;;
  Ok A_adj_y.

End Methods.

(** One slice voxel that observes the one voxel of the volume: the masked
    forward model is the identity, and its adjoint hands back the block of
    slice voxels, so the data-fit halves are adjoint without any rounding. *)
Definition demo_base : Solver :=
  {| _N_total_slice_voxels := 1;
     _N_voxels_HR_volume := 1;
     _MA := fun x => x;
     _A_adj_M := fun z => getslice z (Some 0%Z) (Some 1%Z) |}.

(** The decimal numbers 0.1, 0.2, 0.3 and 0.03 as Python reads them: the
    nearest binary64 values. *)
Definition demo_x : ndarray := [0x1.999999999999ap-4%float].
Definition demo_z : ndarray := [0x1.999999999999ap-3%float; 0x1.3333333333333p-2%float].
Definition demo_alpha : float := 0x1.eb851eb851eb8p-6%float.

End Float64.

(** ** Contracts of the inherited operators *)

(** The shapes the superclass guarantees: a non-empty volume grid of
    [_N_voxels_HR_volume] voxels, [_N_total_slice_voxels] stacked slice
    voxels, and operators that map between arrays of these sizes. *)
Record shapes_ok (base : Solver) : Prop := {
  N_positive : (0 < _N_voxels_HR_volume base)%nat;
  MA_length : forall x, length x = _N_voxels_HR_volume base ->
    length (_MA base x) = _N_total_slice_voxels base;
  A_adj_M_length : forall z, (_N_total_slice_voxels base <= length z)%nat ->
    length (_A_adj_M base z) = _N_voxels_HR_volume base;
  M_y_length : length (_get_M_y base) = _N_total_slice_voxels base
}.

(** The differential operators keep the shape of the volume. *)
Record derivative_shapes_ok (base : Solver) : Prop := {
  Dx_length : forall u, length u = _N_voxels_HR_volume base ->
    length (Dx (_differential_operations base) u) = _N_voxels_HR_volume base;
  Dy_length : forall u, length u = _N_voxels_HR_volume base ->
    length (Dy (_differential_operations base) u) = _N_voxels_HR_volume base;
  Dz_length : forall u, length u = _N_voxels_HR_volume base ->
    length (Dz (_differential_operations base) u) = _N_voxels_HR_volume base;
  Dx_adj_length : forall u, length u = _N_voxels_HR_volume base ->
    length (Dx_adj (_differential_operations base) u) = _N_voxels_HR_volume base;
  Dy_adj_length : forall u, length u = _N_voxels_HR_volume base ->
    length (Dy_adj (_differential_operations base) u) = _N_voxels_HR_volume base;
  Dz_adj_length : forall u, length u = _N_voxels_HR_volume base ->
    length (Dz_adj (_differential_operations base) u) = _N_voxels_HR_volume base
}.

(** The data-fit halves are adjoint: [<MA x, z_upper> = <x, A'M z>], where
    [_A_adj_M] is handed the whole augmented vector [z] and [z_upper] is its
    block of stacked slice voxels. *)
Definition data_fit_adjoint (base : Solver) : Prop :=
  forall x z, length x = _N_voxels_HR_volume base ->
    (_N_total_slice_voxels base <= length z)%nat ->
    dot (_MA base x) (firstn (_N_total_slice_voxels base) z)
    = dot x (_A_adj_M base z).

(** Modelled from the spec: the contract of the differential operator,
    whose code is not among the source files. Section 4.1: for any volumes
    [u], [v], [<D u, v> = <u, D^T v>], for each of the three axes. *)
Definition derivative_adjoint (base : Solver) : Prop :=
  forall u v, length u = _N_voxels_HR_volume base ->
    length v = _N_voxels_HR_volume base ->
    dot (Dx (_differential_operations base) u) v
    = dot u (Dx_adj (_differential_operations base) v)
    /\ dot (Dy (_differential_operations base) u) v
       = dot u (Dy_adj (_differential_operations base) v)
    /\ dot (Dz (_differential_operations base) u) v
       = dot u (Dz_adj (_differential_operations base) v).

(** * Properties *)

(** ** Arrays, slices and inner products *)

Section NumpyFacts.

Local Open Scope R_scope.

Lemma zeros_length (n : nat) : length (zeros n) = n.
Proof. apply repeat_length. Qed.

Lemma scalar_mul_length (c : R) (a : ndarray) : length (scalar_mul c a) = length a.
Proof. apply length_map. Qed.

Lemma mul_scalar_length (a : ndarray) (c : R) : length (mul_scalar a c) = length a.
Proof. apply length_map. Qed.

Lemma scalar_mul_0 (a : ndarray) : scalar_mul 0 a = zeros (length a).
Proof.
  unfold zeros. induction a as [|v a IH]; simpl; [reflexivity|].
  rewrite IH. f_equal. ring.
Qed.

Lemma zip_with_length (f : R -> R -> R) (a b : ndarray) :
  length a = length b -> length (zip_with f a b) = length a.
Proof.
  revert b; induction a as [|x a IH]; intros [|y b] H; simpl in *;
    try discriminate; auto.
Qed.

Lemma zeros_add (n m : nat) : zeros (n + m) = zeros n ++ zeros m.
Proof. apply repeat_app. Qed.

Lemma broadcast_to_same (n : nat) (v : ndarray) :
  length v = n -> broadcast_to n v = Ok v.
Proof.
  intros H. unfold broadcast_to. rewrite (proj2 (Nat.eqb_eq _ _) H). reflexivity.
Qed.

Lemma elementwise_same (f : R -> R -> R) (a b : ndarray) :
  length a = length b -> elementwise f a b = Ok (zip_with f a b).
Proof.
  intros H. unfold elementwise. rewrite (proj2 (Nat.eqb_eq _ _) H). reflexivity.
Qed.

(** The slice [a[0:-m]] of an array of [n + m] entries, [m > 0], is its
    first [n] entries; assigning [n] values there replaces exactly them. *)
Lemma setslice_upper (a v : ndarray) (n m : nat) :
  (0 < m)%nat -> length a = (n + m)%nat -> length v = n ->
  setslice a (Some 0%Z) (Some (- Z.of_nat m)%Z) v = Ok (v ++ skipn n a).
Proof.
  intros Hm Ha Hv. unfold setslice, slice_bounds, clip_index. rewrite Ha.
  replace (0 <? 0)%Z with false by reflexivity.
  replace (- Z.of_nat m <? 0)%Z with true by (symmetry; apply Z.ltb_lt; lia).
  replace (Z.to_nat (Z.max (- Z.of_nat m + Z.of_nat (n + m)) 0)) with n by lia.
  simpl Nat.min. rewrite Nat.sub_0_r. rewrite broadcast_to_same by assumption.
  reflexivity.
Qed.

(** The slice [a[-m:]] of an array of [n + m] entries, [m > 0], is its last
    [m] entries. *)
Lemma setslice_lower (a v : ndarray) (n m : nat) :
  (0 < m)%nat -> length a = (n + m)%nat -> length v = m ->
  setslice a (Some (- Z.of_nat m)%Z) None v = Ok (firstn n a ++ v).
Proof.
  intros Hm Ha Hv. unfold setslice, slice_bounds, clip_index. rewrite Ha.
  replace (- Z.of_nat m <? 0)%Z with true by (symmetry; apply Z.ltb_lt; lia).
  replace (Z.to_nat (Z.max (- Z.of_nat m + Z.of_nat (n + m)) 0)) with n by lia.
  replace (n + m - n)%nat with m by lia.
  rewrite broadcast_to_same by assumption. cbn [rbind].
  rewrite skipn_all2 by lia. rewrite app_nil_r. reflexivity.
Qed.

Lemma getslice_lower (a : ndarray) (n m : nat) :
  (0 < m)%nat -> length a = (n + m)%nat ->
  getslice a (Some (- Z.of_nat m)%Z) None = skipn n a.
Proof.
  intros Hm Ha. unfold getslice, slice_bounds, clip_index. rewrite Ha.
  replace (- Z.of_nat m <? 0)%Z with true by (symmetry; apply Z.ltb_lt; lia).
  replace (Z.to_nat (Z.max (- Z.of_nat m + Z.of_nat (n + m)) 0)) with n by lia.
  apply firstn_all2. rewrite length_skipn. lia.
Qed.

(** The slice [a[0:n]] with [n] within the array. *)
Lemma setslice_prefix (a v : ndarray) (n : nat) :
  (n <= length a)%nat -> length v = n ->
  setslice a (Some 0%Z) (Some (Z.of_nat n)) v = Ok (v ++ skipn n a).
Proof.
  intros Ha Hv. unfold setslice, slice_bounds, clip_index.
  replace (0 <? 0)%Z with false by reflexivity.
  replace (Z.of_nat n <? 0)%Z with false by (symmetry; apply Z.ltb_ge; lia).
  rewrite Nat2Z.id. simpl Nat.min. rewrite Nat.min_l by assumption.
  rewrite Nat.sub_0_r. rewrite broadcast_to_same by assumption. reflexivity.
Qed.

(** [a[lo:hi]] for bounds within the array. *)
Lemma getslice_within (a : ndarray) (lo hi : nat) :
  (lo <= hi)%nat -> (hi <= length a)%nat ->
  getslice a (Some (Z.of_nat lo)) (Some (Z.of_nat hi)) = firstn (hi - lo) (skipn lo a).
Proof.
  intros H1 H2. unfold getslice, slice_bounds, clip_index.
  replace (Z.of_nat lo <? 0)%Z with false by (symmetry; apply Z.ltb_ge; lia).
  replace (Z.of_nat hi <? 0)%Z with false by (symmetry; apply Z.ltb_ge; lia).
  rewrite !Nat2Z.id. rewrite !Nat.min_l by lia. reflexivity.
Qed.

Lemma getslice_from (a : ndarray) (lo : nat) :
  (lo <= length a)%nat ->
  getslice a (Some (Z.of_nat lo)) None = skipn lo a.
Proof.
  intros H. unfold getslice, slice_bounds, clip_index.
  replace (Z.of_nat lo <? 0)%Z with false by (symmetry; apply Z.ltb_ge; lia).
  rewrite Nat2Z.id. rewrite Nat.min_l by lia.
  apply firstn_all2. rewrite length_skipn. lia.
Qed.

Lemma sum_app (a b : ndarray) : sum (a ++ b) = sum a + sum b.
Proof.
  induction a as [|x a IH]; simpl; [ring|]. fold (sum (a ++ b)) (sum a).
  rewrite IH. ring.
Qed.

Lemma zip_with_app (f : R -> R -> R) (a b c d : ndarray) :
  length a = length c ->
  zip_with f (a ++ b) (c ++ d) = zip_with f a c ++ zip_with f b d.
Proof.
  revert c; induction a as [|x a IH]; intros [|y c] H; simpl in *;
    try discriminate; [reflexivity|].
  f_equal. apply IH. lia.
Qed.

Lemma dot_app (a b c d : ndarray) :
  length a = length c -> dot (a ++ b) (c ++ d) = dot a c + dot b d.
Proof.
  intros H. unfold dot. rewrite zip_with_app by assumption. apply sum_app.
Qed.

Lemma dot_scalar_mul_l (c : R) (a b : ndarray) :
  dot (scalar_mul c a) b = c * dot a b.
Proof.
  unfold dot. revert b; induction a as [|x a IH]; intros [|y b]; simpl;
    try ring.
  fold (sum (zip_with Rmult (scalar_mul c a) b)) (sum (zip_with Rmult a b)).
  rewrite IH. ring.
Qed.

Lemma dot_mul_scalar_r (c : R) (a b : ndarray) :
  dot a (mul_scalar b c) = c * dot a b.
Proof.
  unfold dot. revert b; induction a as [|x a IH]; intros [|y b]; simpl;
    try ring.
  fold (sum (zip_with Rmult a (mul_scalar b c))) (sum (zip_with Rmult a b)).
  rewrite IH. ring.
Qed.

Lemma dot_plus_r (a b c : ndarray) :
  length b = length c ->
  dot a (zip_with Rplus b c) = dot a b + dot a c.
Proof.
  unfold dot. revert b c; induction a as [|x a IH]; intros [|y b] [|z c] H;
    simpl in *; try discriminate; try ring.
  fold (sum (zip_with Rmult a (zip_with Rplus b c)))
       (sum (zip_with Rmult a b)) (sum (zip_with Rmult a c)).
  rewrite IH by lia. ring.
Qed.

End NumpyFacts.

(** ** The augmented operator *)

Section AugmentedOperator.

Local Open Scope R_scope.

Variable base : Solver.

Local Abbreviation N := (_N_voxels_HR_volume base).
Local Abbreviation Ns := (_N_total_slice_voxels base).
Local Abbreviation D := (_differential_operations base).

Hypothesis shapes : shapes_ok base.

Lemma A_TK0_value (x : ndarray) (alpha : R) :
  length x = N ->
  _A_TK0 base x alpha = Ok (_MA base x ++ scalar_mul (sqrt alpha) x).
Proof.
  intros Hx. unfold _A_TK0.
  pose proof (N_positive shapes) as HN.
  pose proof (MA_length shapes x Hx) as HMA.
  rewrite (@setslice_upper _ _ Ns N); auto using zeros_length.
  cbn [rbind].
  rewrite (@setslice_lower _ _ Ns N); auto.
  - cbn [rbind]. rewrite firstn_app, firstn_all2 by lia.
    replace (Ns - length (_MA base x))%nat with 0%nat by lia.
    rewrite firstn_O, app_nil_r. reflexivity.
  - rewrite length_app, length_skipn, zeros_length. lia.
  - rewrite scalar_mul_length. assumption.
Qed.

Lemma A_adj_TK0_value (z : ndarray) (alpha : R) :
  length z = (Ns + N)%nat ->
  _A_adj_TK0 base z alpha
  = Ok (zip_with Rplus (_A_adj_M base z) (mul_scalar (skipn Ns z) (sqrt alpha))).
Proof.
  intros Hz. unfold _A_adj_TK0.
  pose proof (N_positive shapes) as HN.
  rewrite (@getslice_lower z Ns N) by assumption.
  unfold add. rewrite elementwise_same; [reflexivity|].
  rewrite mul_scalar_length, length_skipn, (A_adj_M_length shapes) by lia. lia.
Qed.

Hypothesis dshapes : derivative_shapes_ok base.

Lemma A_TK1_zero_alpha (x : ndarray) :
  length x = N ->
  _A_TK1 base x 0 = Ok (_MA base x ++ zeros (3 * N)).
Proof.
  intros Hx. unfold _A_TK1. rewrite sqrt_0, !scalar_mul_0.
  rewrite (Dx_length dshapes), (Dy_length dshapes), (Dz_length dshapes) by assumption.
  do 2 f_equal. rewrite <- !zeros_add. f_equal. lia.
Qed.

Lemma A_adj_TK1_value (z : ndarray) (alpha : R) :
  length z = (Ns + 3 * N)%nat ->
  _A_adj_TK1 base z alpha
  = Ok (zip_with Rplus (_A_adj_M base z)
         (mul_scalar
            (zip_with Rplus
               (zip_with Rplus (Dx_adj D (firstn N (skipn Ns z)))
                               (Dy_adj D (firstn N (skipn (Ns + N) z))))
               (Dz_adj D (skipn (Ns + 2 * N) z)))
            (sqrt alpha))).
Proof.
  intros Hz. unfold _A_adj_TK1.
  rewrite !getslice_within, getslice_from by lia.
  replace (Ns + N - Ns)%nat with N by lia.
  replace (Ns + 2 * N - (Ns + N))%nat with N by lia.
  assert (H1 : length (firstn N (skipn Ns z)) = N)
    by (rewrite length_firstn, length_skipn; lia).
  assert (H2 : length (firstn N (skipn (Ns + N) z)) = N)
    by (rewrite length_firstn, length_skipn; lia).
  assert (H3 : length (skipn (Ns + 2 * N) z) = N)
    by (rewrite length_skipn; lia).
  pose proof (Dx_adj_length dshapes _ H1) as L1.
  pose proof (Dy_adj_length dshapes _ H2) as L2.
  pose proof (Dz_adj_length dshapes _ H3) as L3.
  assert (L0 : length (_A_adj_M base z) = N)
    by (apply (A_adj_M_length shapes); lia).
  unfold add. rewrite elementwise_same by congruence.
  cbn [rbind]. rewrite elementwise_same
    by (rewrite zip_with_length; congruence).
  cbn [rbind]. rewrite elementwise_same; [reflexivity|].
  rewrite mul_scalar_length, !zip_with_length; try congruence.
  rewrite zip_with_length; congruence.
Qed.

(** C2. For every volume vector [x] and every [alpha >= 0], [_A_TK0]
    returns the concatenation [[MA x; sqrt(alpha) x]] of length
    [N_total_slice_voxels + N_voxels]; [_A_adj_TK0] returns the data-fit
    adjoint plus [sqrt(alpha)] times the last [N_voxels] entries of its
    argument; and with [alpha = 0] the regularization block of the forward
    operator is all-zero and still present, of [N_voxels] entries for TK0
    and [3 N_voxels] for TK1. *)
Theorem A_TK0_concatenates (x z : ndarray) (alpha : R) :
  0 <= alpha -> length x = N -> length z = (Ns + N)%nat ->
  _A_TK0 base x alpha = Ok (_MA base x ++ scalar_mul (sqrt alpha) x)
  /\ length (_MA base x ++ scalar_mul (sqrt alpha) x) = (Ns + N)%nat
  /\ _A_adj_TK0 base z alpha
     = Ok (zip_with Rplus (_A_adj_M base z) (mul_scalar (skipn Ns z) (sqrt alpha)))
  /\ length (skipn Ns z) = N
  /\ _A_TK0 base x 0 = Ok (_MA base x ++ zeros N)
  /\ _A_TK1 base x 0 = Ok (_MA base x ++ zeros (3 * N)).
Proof.
  intros _ Hx Hz. repeat split.
  - apply A_TK0_value; assumption.
  - rewrite length_app, scalar_mul_length, (MA_length shapes) by assumption. lia.
  - apply A_adj_TK0_value; assumption.
  - rewrite length_skipn. lia.
  - rewrite A_TK0_value by assumption. rewrite sqrt_0, scalar_mul_0, Hx. reflexivity.
  - apply A_TK1_zero_alpha; assumption.
Qed.

Hypothesis data_fit : data_fit_adjoint base.
Hypothesis derivatives : derivative_adjoint base.

Lemma A_TK0_adjoint (x z : ndarray) (alpha : R) :
  length x = N -> length z = (Ns + N)%nat ->
  dot (_MA base x ++ scalar_mul (sqrt alpha) x) z
  = dot x (zip_with Rplus (_A_adj_M base z) (mul_scalar (skipn Ns z) (sqrt alpha))).
Proof.
  intros Hx Hz.
  rewrite <- (firstn_skipn Ns z) at 1.
  rewrite dot_app
    by (rewrite (MA_length shapes), length_firstn by assumption; lia).
  rewrite dot_plus_r
    by (rewrite mul_scalar_length, length_skipn, (A_adj_M_length shapes); lia).
  rewrite dot_scalar_mul_l, dot_mul_scalar_r.
  rewrite (data_fit x z) by lia. reflexivity.
Qed.

Lemma A_TK1_adjoint (x z : ndarray) (alpha : R) :
  length x = N -> length z = (Ns + 3 * N)%nat ->
  dot (_MA base x
       ++ scalar_mul (sqrt alpha) (Dx D x)
       ++ scalar_mul (sqrt alpha) (Dy D x)
       ++ scalar_mul (sqrt alpha) (Dz D x)) z
  = dot x (zip_with Rplus (_A_adj_M base z)
         (mul_scalar
            (zip_with Rplus
               (zip_with Rplus (Dx_adj D (firstn N (skipn Ns z)))
                               (Dy_adj D (firstn N (skipn (Ns + N) z))))
               (Dz_adj D (skipn (Ns + 2 * N) z)))
            (sqrt alpha))).
Proof.
  intros Hx Hz.
  set (zx := firstn N (skipn Ns z)).
  set (zy := firstn N (skipn (Ns + N) z)).
  set (zz := skipn (Ns + 2 * N) z).
  assert (Hzx : length zx = N)
    by (unfold zx; rewrite length_firstn, length_skipn; lia).
  assert (Hzy : length zy = N)
    by (unfold zy; rewrite length_firstn, length_skipn; lia).
  assert (Hzz : length zz = N) by (unfold zz; rewrite length_skipn; lia).
  assert (Esplit : z = firstn Ns z ++ zx ++ zy ++ zz).
  { unfold zx, zy, zz.
    rewrite <- (firstn_skipn Ns z) at 1. f_equal.
    rewrite <- (firstn_skipn N (skipn Ns z)) at 1. f_equal.
    rewrite skipn_skipn. replace (N + Ns)%nat with (Ns + N)%nat by lia.
    rewrite <- (firstn_skipn N (skipn (Ns + N) z)) at 1. f_equal.
    rewrite skipn_skipn. f_equal. lia. }
  rewrite Esplit at 1.
  rewrite dot_app
    by (rewrite (MA_length shapes), length_firstn by assumption; lia).
  rewrite dot_app
    by (rewrite scalar_mul_length, (Dx_length dshapes) by assumption; lia).
  rewrite dot_app
    by (rewrite scalar_mul_length, (Dy_length dshapes) by assumption; lia).
  rewrite !dot_scalar_mul_l.
  destruct (derivatives x zx Hx Hzx) as (Ex & _ & _).
  destruct (derivatives x zy Hx Hzy) as (_ & Ey & _).
  destruct (derivatives x zz Hx Hzz) as (_ & _ & Ez).
  rewrite Ex, Ey, Ez, (data_fit x z) by lia.
  pose proof (Dx_adj_length dshapes _ Hzx) as L1.
  pose proof (Dy_adj_length dshapes _ Hzy) as L2.
  pose proof (Dz_adj_length dshapes _ Hzz) as L3.
  assert (L0 : length (_A_adj_M base z) = N)
    by (apply (A_adj_M_length shapes); lia).
  assert (L12 : length (zip_with Rplus (Dx_adj D zx) (Dy_adj D zy)) = N)
    by (rewrite zip_with_length; congruence).
  rewrite dot_plus_r
    by (rewrite mul_scalar_length, zip_with_length; congruence).
  rewrite dot_mul_scalar_r, !dot_plus_r by congruence.
  ring.
Qed.

End AugmentedOperator.

Section AugmentedAdjoint.

Local Open Scope R_scope.

Variable base : Solver.

Local Abbreviation N := (_N_voxels_HR_volume base).
Local Abbreviation Ns := (_N_total_slice_voxels base).

Hypothesis shapes : shapes_ok base.
Hypothesis data_fit : data_fit_adjoint base.


End AugmentedAdjoint.

(** ** The concrete session meets the contracts *)

Section DemoContracts.

Local Open Scope R_scope.

Lemma demo_shapes : shapes_ok Demo.base.
Proof.
  split; cbn.
  - lia.
  - intros [|x0 [|x1 [|x2 x]]] H; cbn in *; try discriminate; reflexivity.
  - intros [|z0 [|z1 z]] H; cbn in *; try lia; reflexivity.
  - reflexivity.
Qed.

Lemma demo_derivative_shapes : derivative_shapes_ok Demo.base.
Proof.
  split; cbn; intros [|x0 [|x1 [|x2 x]]] H; cbn in *; try discriminate;
    reflexivity.
Qed.

Lemma demo_data_fit : data_fit_adjoint Demo.base.
Proof.
  intros [|x0 [|x1 [|x2 x]]] [|z0 [|z1 z]] Hx Hz; cbn in *;
    try discriminate; try lia.
  unfold dot; cbn. ring.
Qed.

Lemma demo_derivatives : derivative_adjoint Demo.base.
Proof.
  intros [|u0 [|u1 [|u2 u]]] [|v0 [|v1 [|v2 v]]] Hu Hv; cbn in *;
    try discriminate.
  unfold dot; cbn. repeat split; ring.
Qed.

(** The forward operator on the volume [[1; 2]] with [alpha = 0.03]. *)
Lemma A_TK0_concatenates_witness :
  _A_TK0 Demo.base [1; 2] (3 / 100)
  = Ok (Demo.MA [1; 2] ++ scalar_mul (sqrt (3 / 100)) [1; 2]).
Proof.
  refine (proj1 (@A_TK0_concatenates Demo.base demo_shapes demo_derivative_shapes
                   [1; 2] [1; 2; 3; 4] (3 / 100) _ _ _)).
  - lra.
  - reflexivity.
  - reflexivity.
Defined.


Lemma demo_unmatched_shapes : shapes_ok Demo.base_unmatched_derivative.
Proof.
  split; cbn.
  - lia.
  - intros [|x0 [|x1 [|x2 x]]] H; cbn in *; try discriminate; reflexivity.
  - intros [|z0 [|z1 z]] H; cbn in *; try lia; reflexivity.
  - reflexivity.
Qed.

Lemma demo_unmatched_derivative_shapes :
  derivative_shapes_ok Demo.base_unmatched_derivative.
Proof.
  split; cbn; intros [|x0 [|x1 [|x2 x]]] H; cbn in *; try discriminate;
    reflexivity.
Qed.

Lemma demo_unmatched_data_fit : data_fit_adjoint Demo.base_unmatched_derivative.
Proof.
  intros [|x0 [|x1 [|x2 x]]] [|z0 [|z1 z]] Hx Hz; cbn in *;
    try discriminate; try lia.
  unfold dot; cbn. ring.
Qed.


End DemoContracts.

(** ** What a method leaves untouched *)

Section Frames.

Variable X : Type.
Variable field : TikhonovSolver -> X.

Lemma keeps_ret {A : Type} (a : A) : keeps field (ret a).
Proof. intros s. reflexivity. Qed.

Lemma keeps_lift {A : Type} (r : result A) : keeps field (lift r).
Proof. intros s. reflexivity. Qed.

Lemma keeps_get : keeps field get.
Proof. intros s. reflexivity. Qed.

Lemma keeps_modify (f : TikhonovSolver -> TikhonovSolver) :
  (forall s, field (f s) = field s) -> keeps field (modify f).
Proof. intros H s. apply H. Qed.

Lemma keeps_bind {A B : Type} (m : method A) (k : A -> method B) :
  keeps field m -> (forall a, keeps field (k a)) -> keeps field (bind m k).
Proof.
  intros Hm Hk s. unfold bind. specialize (Hm s).
  destruct (m s) as [[a|e] s1]; cbn in *.
  - rewrite Hk. assumption.
  - assumption.
Qed.

Lemma keeps_if {A : Type} (c : bool) (m1 m2 : method A) :
  keeps field m1 -> keeps field m2 -> keeps field (if c then m1 else m2).
Proof. destruct c; auto. Qed.

End Frames.

Ltac frame :=
  repeat first
    [ apply keeps_ret | apply keeps_lift | apply keeps_get
    | apply keeps_modify; intros ?; reflexivity
    | apply keeps_if
    | apply keeps_bind; [ | intros ? ] ].

(** ** Reconstruction runs and statistics *)

Section SolverFacts.

Local Open Scope R_scope.
Local Open Scope string_scope.
Local Open Scope list_scope.

Variable base : Solver.
Variable py : Builtins.

Local Abbreviation N := (_N_voxels_HR_volume base).
Local Abbreviation Ns := (_N_total_slice_voxels base).

Lemma print_settings_keeps (X : Type) (field : TikhonovSolver -> X) :
  (forall line s, field (add_stdout line s) = field s) ->
  keeps field (print_settings base py).
Proof.
  intros H. unfold print_settings, print.
  repeat first
    [ apply keeps_ret | apply keeps_lift | apply keeps_get
    | apply keeps_modify; intros ?; apply H
    | apply keeps_if
    | apply keeps_bind; [ | intros ? ] ].
Qed.

Lemma compute_N_voxels_keeps (X : Type) (field : TikhonovSolver -> X) :
  (forall line s, field (add_stdout line s) = field s) ->
  keeps field (compute_N_voxels base).
Proof.
  intros H. unfold compute_N_voxels, print.
  apply keeps_bind; [apply keeps_get|intros s0].
  apply keeps_if; (apply keeps_bind;
    [apply keeps_modify; intros ?; apply H | intros ?; apply keeps_ret]).
Qed.

Lemma run_solver_keeps (X : Type) (field : TikhonovSolver -> X) :
  (forall line s, field (add_stdout line s) = field s) ->
  keeps field (run_solver base py).
Proof.
  intros H. unfold run_solver.
  apply keeps_bind; [apply compute_N_voxels_keeps; assumption|intros n].
  apply keeps_bind; [apply print_settings_keeps; assumption|intros ?].
  frame.
Qed.

(** The value [compute_N_voxels] returns, and the line it prints. *)
Lemma compute_N_voxels_value (s : TikhonovSolver) :
  compute_N_voxels base s
  = if in_list (_reg_type s) ["TK0"]
    then (Ok (Ns + N)%nat,
          add_stdout "Chosen regularization type: zero-order Tikhonov" s)
    else (Ok (Ns + 3 * N)%nat,
          add_stdout "Chosen regularization type: first-order Tikhonov" s).
Proof.
  unfold compute_N_voxels, bind, get, print, modify, ret.
  destruct (in_list (_reg_type s) ["TK0"]); reflexivity.
Qed.

Lemma get_b_value (k : nat) :
  shapes_ok base ->
  _get_b base (Ns + k) = Ok (_get_M_y base ++ zeros k).
Proof.
  intros shapes. unfold _get_b.
  rewrite setslice_prefix.
  - cbn [rbind]. rewrite zeros_add, skipn_app, zeros_length, Nat.sub_diag.
    rewrite skipn_all2 by (rewrite zeros_length; lia). reflexivity.
  - rewrite zeros_length. lia.
  - apply (M_y_length shapes).
Qed.

Lemma compute_N_voxels_returns (s : TikhonovSolver) (k : nat) :
  (_reg_type s = "TK0" /\ k = N) \/ (_reg_type s = "TK1" /\ k = (3 * N)%nat) ->
  fst (compute_N_voxels base s) = Ok (Ns + k)%nat.
Proof.
  intros Hk. rewrite compute_N_voxels_value.
  destruct Hk as [[E ->]|[E ->]]; rewrite E; reflexivity.
Qed.

(** The call of the minimizer in a run whose report does not fail. *)
Lemma run_solver_value (s s1 : TikhonovSolver) (k : nat) solver :
  shapes_ok base ->
  (_reg_type s = "TK0" /\ k = N) \/ (_reg_type s = "TK1" /\ k = (3 * N)%nat) ->
  print_settings base py (snd (compute_N_voxels base s)) = (Ok tt, s1) ->
  getitem (_get_approximate_solution base) (_minimizer s1) = Ok solver ->
  run_solver base py s
  = (solver s1 (A_fw base s1) (A_bw base s1) (_get_M_y base ++ zeros k), s1).
Proof.
  intros shapes Hk Hp Hs.
  pose proof (compute_N_voxels_returns s Hk) as HN.
  unfold run_solver, bind at 1.
  destruct (compute_N_voxels base s) as [r0 s0] eqn:E0. cbn [fst snd] in HN, Hp.
  subst r0. unfold bind at 1. rewrite Hp.
  unfold bind at 1, lift at 1. rewrite get_b_value by assumption.
  unfold bind at 1, get at 1. unfold bind at 1, lift at 1. rewrite Hs.
  reflexivity.
Qed.

(** C3. In every reconstruction run the right-hand side [b] is the masked
    stacked observations [M y] followed by zeros only: [N_voxels] of them
    for TK0 and [3 N_voxels] for TK1; this is the vector the minimizer is
    called with. *)
Theorem rhs_is_observations_then_zeros (s : TikhonovSolver) (k : nat) :
  shapes_ok base ->
  (_reg_type s = "TK0" /\ k = N) \/ (_reg_type s = "TK1" /\ k = (3 * N)%nat) ->
  exists b,
    (N_voxels <- fst (compute_N_voxels base s) ;; _get_b base N_voxels) = Ok b
    /\ b = _get_M_y base ++ zeros k
    /\ firstn Ns b = _get_M_y base
    /\ skipn Ns b = zeros k
    /\ forall s1 solver,
         print_settings base py (snd (compute_N_voxels base s)) = (Ok tt, s1) ->
         getitem (_get_approximate_solution base) (_minimizer s1) = Ok solver ->
         run_solver base py s = (solver s1 (A_fw base s1) (A_bw base s1) b, s1).
Proof.
  intros shapes Hk.
  pose proof (compute_N_voxels_returns s Hk) as HN.
  exists (_get_M_y base ++ zeros k). repeat split.
  - rewrite HN. cbn [rbind]. apply get_b_value; assumption.
  - rewrite firstn_app, firstn_all2 by (rewrite (M_y_length shapes); lia).
    rewrite (M_y_length shapes), Nat.sub_diag, firstn_O, app_nil_r. reflexivity.
  - rewrite skipn_app, skipn_all2 by (rewrite (M_y_length shapes); lia).
    rewrite (M_y_length shapes), Nat.sub_diag. reflexivity.
  - intros s1 solver Hp Hs. apply run_solver_value; assumption.
Qed.

(** C4. A run that fails before the minimizer has returned a solution
    leaves both images of the HR volume as they were: the call of
    [run_reconstruction] raises the same exception, and the volume is only
    assigned after [run_solver] has returned. *)
Theorem failed_solve_leaves_volume (time_start time_end : R)
  (s s' : TikhonovSolver) (e : exn) :
  run_solver base py s = (Raise e, s') ->
  run_reconstruction base py time_start time_end s = (Raise e, s')
  /\ _HR_volume_itk s' = _HR_volume_itk s
  /\ _HR_volume_sitk s' = _HR_volume_sitk s.
Proof.
  intros H. split; [|split].
  - unfold run_reconstruction, bind at 1. rewrite H. reflexivity.
  - change s' with (snd (Raise (A:=ndarray) e, s')). rewrite <- H.
    apply run_solver_keeps. reflexivity.
  - change s' with (snd (Raise (A:=ndarray) e, s')). rewrite <- H.
    apply run_solver_keeps. reflexivity.
Qed.

(** A minimizer name without an entry in the solver table is such a
    failure: the lookup raises [KeyError]. *)
Lemma unknown_minimizer_raises (s s1 : TikhonovSolver) :
  shapes_ok base ->
  _reg_type s = "TK0" \/ _reg_type s = "TK1" ->
  print_settings base py (snd (compute_N_voxels base s)) = (Ok tt, s1) ->
  getitem (_get_approximate_solution base) (_minimizer s1)
  = Raise (KeyError (_minimizer s1)) ->
  run_solver base py s = (Raise (KeyError (_minimizer s1)), s1).
Proof.
  intros shapes Hrt Hp Hs. unfold run_solver, bind at 1.
  rewrite compute_N_voxels_value in *.
  assert (Hb : exists k,
    (if in_list (_reg_type s) ["TK0"]
     then (Ok (Ns + N)%nat,
           add_stdout "Chosen regularization type: zero-order Tikhonov" s)
     else (Ok (Ns + 3 * N)%nat,
           add_stdout "Chosen regularization type: first-order Tikhonov" s))
    = (Ok (Ns + k)%nat, snd (if in_list (_reg_type s) ["TK0"]
     then (Ok (Ns + N)%nat,
           add_stdout "Chosen regularization type: zero-order Tikhonov" s)
     else (Ok (Ns + 3 * N)%nat,
           add_stdout "Chosen regularization type: first-order Tikhonov" s)))).
  { destruct (in_list (_reg_type s) ["TK0"]); eexists; reflexivity. }
  destruct Hb as [k Hb]. rewrite Hb. unfold bind at 1. rewrite Hp.
  unfold bind at 1, lift at 1. rewrite get_b_value by assumption.
  unfold bind at 1, get at 1. unfold bind at 1, lift at 1. rewrite Hs.
  reflexivity.
Qed.

(** [run_reconstruction] assigns the elapsed time and the two images of
    the volume, and prints; every other attribute is as before. *)
Lemma run_reconstruction_keeps (X : Type) (field : TikhonovSolver -> X)
  (time_start time_end : R) :
  (forall line s, field (add_stdout line s) = field s) ->
  (forall v s, field (set_elapsed_time_sec v s) = field s) ->
  (forall v s, field (set_HR_volume_itk v s) = field s) ->
  (forall v s, field (set_HR_volume_sitk v s) = field s) ->
  keeps field (run_reconstruction base py time_start time_end).
Proof.
  intros H1 H2 H3 H4. unfold run_reconstruction.
  apply keeps_bind; [apply run_solver_keeps; assumption|intros x].
  apply keeps_bind; [apply keeps_modify; intros; apply H2|intros ?].
  apply keeps_bind; [apply keeps_get|intros self].
  apply keeps_bind; [apply keeps_lift|intros itk].
  apply keeps_bind; [apply keeps_modify; intros; apply H3|intros ?].
  apply keeps_bind; [apply keeps_lift|intros sitk].
  apply keeps_modify; intros; apply H4.
Qed.

(** *** Statistics and the final cost *)

Lemma get_final_cost_cached (s : TikhonovSolver) (e p : R) :
  _residual_ell2 s = Some e -> _residual_prior s = Some p ->
  get_final_cost base s = (Ok (e + _alpha s * p), s).
Proof.
  intros He Hp. unfold get_final_cost, bind, get. rewrite He, Hp. cbn.
  rewrite He, Hp. reflexivity.
Qed.

Lemma compute_statistics_TK0 (s : TikhonovSolver) :
  _reg_type s = "TK0" ->
  compute_statistics base s
  = (Ok tt,
     set_residual_prior (Some (sum (square (_HR_volume_sitk s))))
       (set_residual_ell2
          (Some (_get_residual_ell2 base (_HR_volume_sitk s))) s)).
Proof.
  intros H. unfold compute_statistics, bind, get, modify, lift. cbn.
  rewrite H. reflexivity.
Qed.

Lemma compute_statistics_TK1 (s : TikhonovSolver) (n0 n1 n2 : nat) :
  _reg_type s = "TK1" ->
  _HR_shape_nda base = (n0, n1, n2) ->
  length (_HR_volume_sitk s) = (n0 * n1 * n2)%nat ->
  compute_statistics base s
  = (Ok tt,
     set_residual_prior
       (Some (sum (square (Dx (_differential_operations base) (_HR_volume_sitk s)))
              + sum (square (Dy (_differential_operations base) (_HR_volume_sitk s)))
              + sum (square (Dz (_differential_operations base) (_HR_volume_sitk s)))))
       (set_residual_ell2
          (Some (_get_residual_ell2 base (_HR_volume_sitk s))) s)).
Proof.
  intros H Hshape Hlen.
  unfold compute_statistics, bind, get, modify, lift. cbn.
  rewrite H. cbn. unfold _get_residual_prior_TK1, reshape_HR.
  rewrite Hshape, (proj2 (Nat.eqb_eq _ _) Hlen). reflexivity.
Qed.

Lemma get_final_cost_recomputes (s : TikhonovSolver) :
  _residual_ell2 s = None \/ _residual_prior s = None ->
  get_final_cost base s
  = (compute_statistics base ;;;
     s' <~ get ;;
     lift (cost_of (_residual_ell2 s') (_residual_prior s') (_alpha s'))) s.
Proof.
  intros H. unfold get_final_cost, bind at 1, get at 1.
  destruct H as [H|H]; rewrite H.
  - reflexivity.
  - destruct (_residual_ell2 s); reflexivity.
Qed.


(** *** The printed report *)

Lemma print_statistics_needs_residual (s : TikhonovSolver) :
  _residual_ell2 s = None ->
  exists e s', print_statistics py s = (Raise e, s').
Proof.
  intros H. unfold print_statistics, bind, get, print, modify, lift.
  destruct (_elapsed_time_sec s); cbn.
  - rewrite H. cbn. eexists; eexists; reflexivity.
  - eexists; eexists; reflexivity.
Qed.

Lemma set_regularization_type_keeps (X : Type) (field : TikhonovSolver -> X)
  (reg_type : string) :
  (forall v s, field (set_reg_type v s) = field s) ->
  keeps field (set_regularization_type reg_type).
Proof.
  intros H. unfold set_regularization_type.
  apply keeps_if; [apply keeps_lift|apply keeps_modify; intros; apply H].
Qed.

Lemma print_statistics_keeps (X : Type) (field : TikhonovSolver -> X) :
  (forall line s, field (add_stdout line s) = field s) ->
  keeps field (print_statistics py).
Proof.
  intros H. unfold print_statistics, print.
  repeat first
    [ apply keeps_lift | apply keeps_get
    | apply keeps_modify; intros ?; apply H
    | apply keeps_bind; [ | intros ? ] ].
Qed.

Lemma perform_keeps_residual_ell2 (c : call) (s : TikhonovSolver) :
  computes_statistics c = false ->
  _residual_ell2 (perform base py c s) = _residual_ell2 s.
Proof.
  destruct c; cbn [computes_statistics perform]; intros H; try discriminate.
  - apply (set_regularization_type_keeps _residual_ell2). reflexivity.
  - reflexivity.
  - apply (print_statistics_keeps _residual_ell2). reflexivity.
  - reflexivity.
  - apply (run_reconstruction_keeps _residual_ell2); reflexivity.
Qed.

Lemma perform_all_keeps_residual_ell2 (calls : list call) (s : TikhonovSolver) :
  forallb (fun c => negb (computes_statistics c)) calls = true ->
  _residual_ell2 (perform_all base py calls s) = _residual_ell2 s.
Proof.
  revert s. induction calls as [|c calls IH]; intros s H; cbn in *.
  - reflexivity.
  - apply andb_prop in H. destruct H as [Hc H].
    unfold perform_all in IH. rewrite IH by assumption.
    apply perform_keeps_residual_ell2.
    destruct (computes_statistics c); [discriminate|reflexivity].
Qed.

(** C10. On a newly constructed solver, after any calls that do not compute
    the statistics, [print_statistics] raises: the residuals are still
    [None] and cannot be formatted. *)
Theorem print_statistics_raises_before_statistics
  (after_super : TikhonovSolver) (reg_type : string) (calls : list call) :
  forallb (fun c => negb (computes_statistics c)) calls = true ->
  exists e s',
    print_statistics py
      (perform_all base py calls (__init__ after_super reg_type))
    = (Raise e, s').
Proof.
  intros H. apply print_statistics_needs_residual.
  rewrite perform_all_keeps_residual_ell2 by assumption. reflexivity.
Qed.

(** *** The regularization type *)

(** C5 (the code departs from the claim). The constructor stores a
    regularization type that the setter rejects, and [run_reconstruction]
    then sizes and announces the system as first-order. *)
Theorem constructor_accepts_unknown_reg_type (after_super : TikhonovSolver) :
  in_list "TK2" ["TK0"; "TK1"] = false
  /\ set_regularization_type "TK2" after_super
     = (Raise (ValueError
          "Error: regularization type can only be either 'TK0' or 'TK1'"),
        after_super)
  /\ _reg_type (__init__ after_super "TK2") = "TK2"
  /\ compute_N_voxels base (__init__ after_super "TK2")
     = (Ok (Ns + 3 * N)%nat,
        add_stdout "Chosen regularization type: first-order Tikhonov"
          (__init__ after_super "TK2")).
Proof. repeat split. Qed.

(** *** Cached statistics across runs *)

(** A run does not touch the cached residuals, so a later
    [get_final_cost] returns the cost cached before the run. *)
Lemma cost_survives_run (time_start time_end : R) (s : TikhonovSolver) (e p : R) :
  _residual_ell2 s = Some e -> _residual_prior s = Some p ->
  get_final_cost base (snd (run_reconstruction base py time_start time_end s))
  = (Ok (e + _alpha s * p),
     snd (run_reconstruction base py time_start time_end s)).
Proof.
  intros He Hp.
  rewrite <- (run_reconstruction_keeps _alpha time_start time_end) by reflexivity.
  apply get_final_cost_cached.
  - rewrite (run_reconstruction_keeps _residual_ell2) by reflexivity. assumption.
  - rewrite (run_reconstruction_keeps _residual_prior) by reflexivity. assumption.
Qed.

End SolverFacts.

(** ** The settings-specific file name *)

Section Filename.

Local Open Scope string_scope.
Local Open Scope list_scope.

Lemma chars_app (a b : string) :
  list_ascii_of_string (a ++ b)%string
  = list_ascii_of_string a ++ list_ascii_of_string b.
Proof. induction a as [|c a IH]; cbn; [reflexivity|]. now rewrite IH. Qed.

Lemma string_app_assoc (a b c : string) :
  ((a ++ b) ++ c = a ++ (b ++ c))%string.
Proof. induction a as [|x a IH]; cbn; [reflexivity|]. now rewrite IH. Qed.

Lemma replace_dots_app (a b : string) :
  replace_dots (a ++ b)%string = (replace_dots a ++ replace_dots b)%string.
Proof. induction a as [|c a IH]; cbn; [reflexivity|]. now rewrite IH. Qed.

Lemma replace_dots_no_dot (s : string) :
  contains_char "." (replace_dots s) = false.
Proof.
  unfold contains_char. induction s as [|c s IH]; [reflexivity|].
  cbn [replace_dots list_ascii_of_string existsb].
  rewrite IH, orb_false_r.
  destruct (Ascii.eqb c ".") eqn:E; [reflexivity|].
  rewrite Ascii.eqb_sym. assumption.
Qed.

Lemma chars_injective (a b : string) :
  list_ascii_of_string a = list_ascii_of_string b -> a = b.
Proof.
  intros H. rewrite <- (string_of_list_ascii_of_string a),
    <- (string_of_list_ascii_of_string b). now rewrite H.
Qed.

(** Replacing the dots does not create an underscore. *)
Lemma replace_dots_underscore (s : string) :
  contains_char "_" s = false -> contains_char "_" (replace_dots s) = false.
Proof.
  unfold contains_char. induction s as [|c s IH]; [reflexivity|].
  cbn [replace_dots list_ascii_of_string existsb].
  intros H. apply orb_false_elim in H. destruct H as [Hc Hs].
  rewrite IH by assumption. rewrite orb_false_r.
  destruct (Ascii.eqb c "."); [reflexivity|assumption].
Qed.

Lemma float_char_not_special (c : ascii) :
  float_char c = true -> Ascii.eqb "_" c = false /\ Ascii.eqb c "p" = false.
Proof.
  unfold float_char, contains_char.
  cbn [list_ascii_of_string existsb]. intros H.
  repeat (apply orb_prop in H; destruct H as [H|H];
          [apply Ascii.eqb_eq in H; subst c; split; reflexivity|]).
  discriminate.
Qed.

Lemma float_text_no_underscore (s : string) :
  float_text s = true -> contains_char "_" s = false.
Proof.
  unfold float_text, contains_char. induction s as [|c s IH];
    [reflexivity|].
  cbn [list_ascii_of_string existsb forallb].
  intros H. apply andb_prop in H. destruct H as [Hc Hs].
  rewrite IH by assumption.
  destruct (float_char_not_special c Hc) as [-> _]. reflexivity.
Qed.

(** On texts of floats, which hold no ['p'], replacing the dots loses
    nothing. *)
Lemma replace_dots_float_injective (a b : string) :
  float_text a = true -> float_text b = true ->
  replace_dots a = replace_dots b -> a = b.
Proof.
  unfold float_text. revert b.
  induction a as [|c a IH]; intros [|d b];
    cbn [list_ascii_of_string forallb replace_dots]; intros Ha Hb E;
    try discriminate; [reflexivity|].
  apply andb_prop in Ha. destruct Ha as [Hc Ha].
  apply andb_prop in Hb. destruct Hb as [Hd Hb].
  injection E as Ecd Eab. f_equal; [|apply IH; assumption].
  destruct (float_char_not_special c Hc) as [_ Hcp].
  destruct (float_char_not_special d Hd) as [_ Hdp].
  destruct (Ascii.eqb c ".") eqn:E1, (Ascii.eqb d ".") eqn:E2.
  - apply Ascii.eqb_eq in E1, E2. congruence.
  - subst d. rewrite Ascii.eqb_refl in Hdp. discriminate.
  - subst c. rewrite Ascii.eqb_refl in Hcp. discriminate.
  - assumption.
Qed.

(** Splitting a text at its last occurrence of a character is unique. *)
Lemma split_at_last (c : ascii) (u u' v v' : list ascii) :
  existsb (Ascii.eqb c) v = false -> existsb (Ascii.eqb c) v' = false ->
  u ++ c :: v = u' ++ c :: v' -> u = u' /\ v = v'.
Proof.
  intros Hv Hv'. revert u'.
  induction u as [|x u IH]; intros [|x' u'] E; cbn in E.
  - injection E as E. split; [reflexivity|assumption].
  - injection E as Ex E. subst x'. rewrite E in Hv.
    rewrite existsb_app in Hv. cbn in Hv.
    rewrite Ascii.eqb_refl, orb_true_r in Hv. discriminate.
  - injection E as Ex E. subst x. rewrite <- E in Hv'.
    rewrite existsb_app in Hv'. cbn in Hv'.
    rewrite Ascii.eqb_refl, orb_true_r in Hv'. discriminate.
  - injection E as Ex E. subst x'. destruct (IH u' E) as [-> ->].
    split; reflexivity.
Qed.

Variable base : Solver.
Variable py : Builtins.

(** The file name as one expression. *)
Lemma filename_value (s : TikhonovSolver) (prefix : string) :
  get_setting_specific_filename base py s prefix
  = replace_dots
      (prefix ++ "_stacks" ++ str_int (_N_stacks base)
       ++ (if Rlt_dec 0 (_alpha s) then "_" ++ _reg_type s else EmptyString)
       ++ "_" ++ _minimizer s
       ++ "_alpha" ++ str_float py (_alpha s)
       ++ "_itermax" ++ str_int (_iter_max s))%string.
Proof.
  unfold get_setting_specific_filename. f_equal.
  destruct (Rlt_dec 0 (_alpha s)); rewrite !string_app_assoc; reflexivity.
Qed.

Lemma filename_chars (s : TikhonovSolver) (prefix : string) :
  list_ascii_of_string (get_setting_specific_filename base py s prefix)
  = (list_ascii_of_string (replace_dots prefix)
     ++ list_ascii_of_string "_stacks"
     ++ list_ascii_of_string (replace_dots (str_int (_N_stacks base))))
    ++ filename_middle py s
    ++ (list_ascii_of_string "_itermax"
        ++ list_ascii_of_string (replace_dots (str_int (_iter_max s)))).
Proof.
  rewrite filename_value. unfold filename_middle.
  rewrite !replace_dots_app, !chars_app.
  destruct (Rlt_dec 0 (_alpha s)); cbn;
    repeat (rewrite <- app_assoc || rewrite <- app_comm_cons); reflexivity.
Qed.

Lemma middle_no_underscore_after_alpha (a : R) :
  float_text (str_float py a) = true ->
  existsb (Ascii.eqb "_")
    (list_ascii_of_string "alpha"
     ++ list_ascii_of_string (replace_dots (str_float py a))) = false.
Proof.
  intros H. rewrite existsb_app. apply orb_false_intro; [reflexivity|].
  apply (replace_dots_underscore (str_float py a)).
  apply float_text_no_underscore. assumption.
Qed.

(** Two settings that differ only in [alpha] get different file names, as
    long as the interpreter prints the two values differently. *)
Lemma filename_separates_alpha (s : TikhonovSolver) (alpha' : R) (prefix : string) :
  float_text (str_float py (_alpha s)) = true ->
  float_text (str_float py alpha') = true ->
  str_float py (_alpha s) <> str_float py alpha' ->
  get_setting_specific_filename base py (set_alpha alpha' s) prefix
  <> get_setting_specific_filename base py s prefix.
Proof.
  intros Ha Ha' Hne E. apply (f_equal list_ascii_of_string) in E.
  rewrite !filename_chars in E. cbn [set_alpha _iter_max] in E.
  apply app_inv_head in E. apply app_inv_tail in E.
  unfold filename_middle in E. cbn [set_alpha _alpha _reg_type _minimizer] in E.
  pose proof (middle_no_underscore_after_alpha _ Ha) as Ua.
  pose proof (middle_no_underscore_after_alpha _ Ha') as Ua'.
  rewrite !app_assoc in E.
  apply (split_at_last _ _ _ _ _ Ua' Ua) in E. destruct E as [Ehead Etail].
  destruct (Rlt_dec 0 alpha'), (Rlt_dec 0 (_alpha s)).
  - apply app_inv_head in Etail. apply chars_injective in Etail.
    apply replace_dots_float_injective in Etail; auto.
  - apply (f_equal (@length ascii)) in Ehead. cbn in Ehead.
    rewrite !length_app in Ehead. cbn in Ehead. lia.
  - apply (f_equal (@length ascii)) in Ehead. cbn in Ehead.
    rewrite !length_app in Ehead. cbn in Ehead. lia.
  - apply app_inv_head in Etail. apply chars_injective in Etail.
    apply replace_dots_float_injective in Etail; auto.
Qed.

(** C8 (amended). The file name is a function of the prefix, the stack
    count, the minimizer name, [alpha], the iteration bound and, only when
    [alpha > 0], the regularization type; it holds no ['.']; and two
    settings that differ only in [alpha] get different names whenever the
    texts of the two values differ. *)
Theorem setting_specific_filename_properties
  (s : TikhonovSolver) (alpha' : R) (prefix : string) :
  float_text (str_float py (_alpha s)) = true ->
  float_text (str_float py alpha') = true ->
  str_float py (_alpha s) <> str_float py alpha' ->
  get_setting_specific_filename base py s prefix
  = replace_dots
      (prefix ++ "_stacks" ++ str_int (_N_stacks base)
       ++ (if Rlt_dec 0 (_alpha s) then "_" ++ _reg_type s else EmptyString)
       ++ "_" ++ _minimizer s
       ++ "_alpha" ++ str_float py (_alpha s)
       ++ "_itermax" ++ str_int (_iter_max s))%string
  /\ (forall s', _reg_type s' = _reg_type s -> _minimizer s' = _minimizer s ->
        _alpha s' = _alpha s -> _iter_max s' = _iter_max s ->
        get_setting_specific_filename base py s' prefix
        = get_setting_specific_filename base py s prefix)
  /\ contains_char "." (get_setting_specific_filename base py s prefix) = false
  /\ contains_char "."
       (get_setting_specific_filename base py (set_alpha alpha' s) prefix) = false
  /\ get_setting_specific_filename base py (set_alpha alpha' s) prefix
     <> get_setting_specific_filename base py s prefix.
Proof.
  intros Ha Ha' Hne. split; [apply filename_value|].
  split; [|split; [|split]].
  - intros s' E1 E2 E3 E4. rewrite !filename_value, E1, E2, E3, E4. reflexivity.
  - unfold get_setting_specific_filename. apply replace_dots_no_dot.
  - unfold get_setting_specific_filename. apply replace_dots_no_dot.
  - apply filename_separates_alpha; assumption.
Qed.

End Filename.

(** ** A completed run, step by step *)

Section CompletedRun.

Local Open Scope R_scope.
Local Open Scope string_scope.
Local Open Scope list_scope.

Variable base : Solver.
Variable py : Builtins.

Local Abbreviation N := (_N_voxels_HR_volume base).
Local Abbreviation Ns := (_N_total_slice_voxels base).

(** Outside the predefined-covariance mode the report cannot fail; it only
    prints. *)
Lemma print_settings_value (s : TikhonovSolver) :
  in_list (_deconvolution_mode s) ["predefined_covariance"] = false ->
  exists lines,
    print_settings base py s
    = (Ok tt, fold_left (fun s line => add_stdout line s) lines s).
Proof.
  intros H. unfold print_settings, bind, get, print, modify, ret, lift.
  destruct (in_list (_deconvolution_mode s) ["only_in_plane"]).
  - exists ["(Only in-plane deconvolution is performed)";
            "Minimizer: " ++ _minimizer s;
            "Regularization parameter: " ++ str_float py (_alpha s);
            "Maximum number of iterations: " ++ str_int (_iter_max s)]%string.
    reflexivity.
  - rewrite H.
    exists ["Minimizer: " ++ _minimizer s;
            "Regularization parameter: " ++ str_float py (_alpha s);
            "Maximum number of iterations: " ++ str_int (_iter_max s)]%string.
    reflexivity.
Qed.

Lemma add_stdout_lines_keep (X : Type) (field : TikhonovSolver -> X)
  (lines : list string) (s : TikhonovSolver) :
  (forall line s, field (add_stdout line s) = field s) ->
  field (fold_left (fun s line => add_stdout line s) lines s) = field s.
Proof.
  intros H. revert s. induction lines as [|l lines IH]; intros s; cbn.
  - reflexivity.
  - rewrite IH. apply H.
Qed.

(** A run in which every step succeeds: the state it ends in. *)
Lemma run_reconstruction_completes (time_start time_end : R)
  (s s1 : TikhonovSolver) (k : nat) solver (x itk sitk : ndarray) :
  shapes_ok base ->
  (_reg_type s = "TK0" /\ k = N) \/ (_reg_type s = "TK1" /\ k = (3 * N)%nat) ->
  print_settings base py (snd (compute_N_voxels base s)) = (Ok tt, s1) ->
  getitem (_get_approximate_solution base) (_minimizer s1) = Ok solver ->
  solver s1 (A_fw base s1) (A_bw base s1) (_get_M_y base ++ zeros k) = Ok x ->
  _get_itk_image_from_array_vec base x (_HR_volume_itk s1) = Ok itk ->
  get_sitk_from_itk_image base itk = Ok sitk ->
  run_reconstruction base py time_start time_end s
  = (Ok tt,
     set_HR_volume_sitk sitk
       (set_HR_volume_itk itk
          (set_elapsed_time_sec (Some (time_end - time_start)) s1))).
Proof.
  intros shapes Hk Hp Hs Hx Hitk Hsitk.
  unfold run_reconstruction, bind at 1.
  rewrite (@run_solver_value base py s s1 k solver shapes Hk Hp Hs), Hx.
  unfold bind, modify, get, lift. cbn. rewrite Hitk. cbn. rewrite Hsitk.
  reflexivity.
Qed.

End CompletedRun.

(** ** Runs of the concrete session *)

Section DemoRuns.

Local Open Scope R_scope.
Local Open Scope string_scope.
Local Open Scope list_scope.

Lemma A_fw_TK0 (base : Solver) (s : TikhonovSolver) (x : ndarray) :
  _reg_type s = "TK0" -> A_fw base s x = _A_TK0 base x (_alpha s).
Proof. intros H. unfold A_fw. rewrite H. reflexivity. Qed.

Lemma A_bw_TK0 (base : Solver) (s : TikhonovSolver) (z : ndarray) :
  _reg_type s = "TK0" -> A_bw base s z = _A_adj_TK0 base z (_alpha s).
Proof. intros H. unfold A_bw. rewrite H. reflexivity. Qed.

(** One step of the stand-in minimizer without regularization. *)
Lemma demo_step (s : TikhonovSolver) (x0 x1 : R) :
  _reg_type s = "TK0" -> _alpha s = 0 -> _HR_volume_itk s = [x0; x1] ->
  Demo.landweber_step s (A_fw Demo.base s) (A_bw Demo.base s)
    (_get_M_y Demo.base ++ zeros 2)
  = Ok [x0 + (3 - x0 - x1) / 2; x1 + (5 - x0 - 2 * x1) / 2].
Proof.
  intros Hrt Ha Hx. unfold Demo.landweber_step. rewrite Hx.
  rewrite A_fw_TK0, Ha, (A_TK0_value demo_shapes) by (assumption || reflexivity).
  cbn [rbind]. unfold sub. rewrite elementwise_same by reflexivity.
  cbn [rbind].
  rewrite A_bw_TK0, Ha, (A_adj_TK0_value demo_shapes) by (assumption || reflexivity).
  cbn [rbind]. unfold add. rewrite elementwise_same by reflexivity.
  rewrite sqrt_0. cbn.
  f_equal. f_equal; [lra|]. f_equal. lra.
Qed.

(** A run of the concrete session from the volume [[x0; x1]]. *)
Lemma demo_run (time_start time_end : R) (s : TikhonovSolver) (x0 x1 : R) :
  _reg_type s = "TK0" -> _alpha s = 0 -> _minimizer s = "lsmr" ->
  _deconvolution_mode s = "full_3D" -> _HR_volume_itk s = [x0; x1] ->
  exists s',
    run_reconstruction Demo.base Demo.py time_start time_end s = (Ok tt, s')
    /\ _HR_volume_itk s' = [x0 + (3 - x0 - x1) / 2; x1 + (5 - x0 - 2 * x1) / 2]
    /\ _HR_volume_sitk s' = [x0 + (3 - x0 - x1) / 2; x1 + (5 - x0 - 2 * x1) / 2].
Proof.
  intros Hrt Ha Hm Hd Hx.
  set (s0 := snd (compute_N_voxels Demo.base s)).
  assert (K : forall (X : Type) (field : TikhonovSolver -> X),
             (forall line s, field (add_stdout line s) = field s) ->
             field s0 = field s)
    by (intros X field H; apply (compute_N_voxels_keeps Demo.base field H)).
  destruct (print_settings_value Demo.base Demo.py s0) as [lines Hp].
  { rewrite (K _ _deconvolution_mode), Hd by reflexivity. reflexivity. }
  set (s1 := fold_left (fun s line => add_stdout line s) lines s0) in Hp.
  assert (K1 : forall (X : Type) (field : TikhonovSolver -> X),
             (forall line s, field (add_stdout line s) = field s) ->
             field s1 = field s).
  { intros X field H. unfold s1. rewrite add_stdout_lines_keep by assumption.
    apply K. assumption. }
  eexists. split.
  { eapply (@run_reconstruction_completes Demo.base Demo.py time_start time_end
              s s1 2 Demo.landweber_step).
    - apply demo_shapes.
    - left. split; [assumption|reflexivity].
    - exact Hp.
    - rewrite (K1 _ _minimizer), Hm by reflexivity. reflexivity.
    - apply demo_step.
      + rewrite (K1 _ _reg_type) by reflexivity. assumption.
      + rewrite (K1 _ _alpha) by reflexivity. assumption.
      + rewrite (K1 _ _HR_volume_itk) by reflexivity. exact Hx.
    - cbn. rewrite (K1 _ _HR_volume_itk), Hx by reflexivity. reflexivity.
    - reflexivity. }
  split; reflexivity.
Qed.

Lemma demo_residual_ell2 (x0 x1 : R) :
  Demo.residual_ell2 [x0; x1]
  = (3 - (x0 + x1)) * (3 - (x0 + x1)) + (2 - x1) * (2 - x1).
Proof. unfold Demo.residual_ell2. cbn. ring. Qed.

(** C7 (the code departs from the claim). On the concrete session, a first
    run yields the volume [[3/2; 5/2]] and [get_final_cost] returns [5/4];
    a second run yields the volume [[1; 7/4]], and [get_final_cost] still
    returns [5/4], while statistics computed from the new volume give
    [1/8]. *)
Theorem cached_cost_is_stale_after_second_run :
  exists s1 s2 s3,
    run_reconstruction Demo.base Demo.py 0 1 (Demo.new 0 "TK0" "lsmr") = (Ok tt, s1)
    /\ _HR_volume_sitk s1 = [3 / 2; 5 / 2]
    /\ get_final_cost Demo.base s1 = (Ok (5 / 4), s2)
    /\ run_reconstruction Demo.base Demo.py 1 2 s2 = (Ok tt, s3)
    /\ _HR_volume_sitk s3 = [1; 7 / 4]
    /\ get_final_cost Demo.base s3 = (Ok (5 / 4), s3)
    /\ fst ((compute_statistics Demo.base ;;; get_final_cost Demo.base) s3)
       = Ok (1 / 8).
Proof.
  destruct (demo_run 0 1 (Demo.new 0 "TK0" "lsmr") (x0:=0) (x1:=0))
    as (s1 & R1 & I1 & V1); try reflexivity.
  replace (0 + (3 - 0 - 0) / 2) with (3 / 2) in I1, V1 by lra.
  replace (0 + (5 - 0 - 2 * 0) / 2) with (5 / 2) in I1, V1 by lra.
  assert (F1 : forall (X : Type) (field : TikhonovSolver -> X),
             (forall line s, field (add_stdout line s) = field s) ->
             (forall v s, field (set_elapsed_time_sec v s) = field s) ->
             (forall v s, field (set_HR_volume_itk v s) = field s) ->
             (forall v s, field (set_HR_volume_sitk v s) = field s) ->
             field s1 = field (Demo.new 0 "TK0" "lsmr")).
  { intros X field H1 H2 H3 H4. change s1 with (snd (Ok tt, s1)).
    rewrite <- R1. apply run_reconstruction_keeps; assumption. }
  assert (Hrt1 : _reg_type s1 = "TK0") by (apply (F1 _ _reg_type); reflexivity).
  assert (Ha1 : _alpha s1 = 0) by (apply (F1 _ _alpha); reflexivity).
  assert (Hm1 : _minimizer s1 = "lsmr") by (apply (F1 _ _minimizer); reflexivity).
  assert (Hd1 : _deconvolution_mode s1 = "full_3D")
    by (apply (F1 _ _deconvolution_mode); reflexivity).
  assert (He1 : _residual_ell2 s1 = None)
    by (apply (F1 _ _residual_ell2); reflexivity).
  set (s2 := set_residual_prior (Some (sum (square (_HR_volume_sitk s1))))
               (set_residual_ell2
                  (Some (_get_residual_ell2 Demo.base (_HR_volume_sitk s1))) s1)).
  assert (C1 : get_final_cost Demo.base s1 = (Ok (5 / 4), s2)).
  { rewrite get_final_cost_recomputes by (left; exact He1).
    unfold bind at 1. rewrite compute_statistics_TK0 by exact Hrt1.
    fold s2. unfold bind, get, lift. cbn -[Demo.residual_ell2 sum square].
    rewrite Ha1, V1. rewrite demo_residual_ell2.
    f_equal. f_equal. cbn. lra. }
  destruct (demo_run 1 2 s2 (x0:=3 / 2) (x1:=5 / 2))
    as (s3 & R2 & I2 & V2);
    [exact Hrt1 | exact Ha1 | exact Hm1 | exact Hd1 | exact I1 | ].
  replace (3 / 2 + (3 - 3 / 2 - 5 / 2) / 2) with 1 in I2, V2 by lra.
  replace (5 / 2 + (5 - 3 / 2 - 2 * (5 / 2)) / 2) with (7 / 4) in I2, V2 by lra.
  exists s1, s2, s3.
  split; [exact R1|]. split; [exact V1|]. split; [exact C1|].
  split; [exact R2|]. split; [exact V2|]. split.
  - change s3 with (snd (Ok tt, s3)). rewrite <- R2.
    rewrite (@cost_survives_run Demo.base Demo.py 1 2 s2
               (_get_residual_ell2 Demo.base (_HR_volume_sitk s1))
               (sum (square (_HR_volume_sitk s1)))) by reflexivity.
    f_equal. f_equal. cbn -[Demo.residual_ell2 sum square].
    rewrite Ha1, V1.
    rewrite demo_residual_ell2. cbn. lra.
  - assert (Hrt3 : _reg_type s3 = "TK0").
    { change s3 with (snd (Ok tt, s3)). rewrite <- R2.
      rewrite (run_reconstruction_keeps Demo.base Demo.py _reg_type) by reflexivity.
      exact Hrt1. }
    assert (Ha3 : _alpha s3 = 0).
    { change s3 with (snd (Ok tt, s3)). rewrite <- R2.
      rewrite (run_reconstruction_keeps Demo.base Demo.py _alpha) by reflexivity.
      exact Ha1. }
    unfold bind at 1. rewrite compute_statistics_TK0 by assumption.
    erewrite get_final_cost_cached by reflexivity.
    cbn -[Demo.residual_ell2 sum square].
    rewrite Ha3, V2, demo_residual_ell2. f_equal. cbn. lra.
Qed.

End DemoRuns.

(** ** The claims on the concrete session *)

Section DemoInstances.

Local Open Scope R_scope.
Local Open Scope string_scope.
Local Open Scope list_scope.

Lemma demo_float_text (x : R) : float_text (str_float Demo.py x) = true.
Proof.
  cbn [Demo.py str_float].
  destruct (Req_dec_T x 0); [reflexivity|].
  destruct (Req_dec_T x (3 / 100)); [reflexivity|].
  destruct (Req_dec_T x 10); reflexivity.
Qed.

Lemma demo_str_float_0 : str_float Demo.py 0 = "0.0".
Proof.
  cbn [Demo.py str_float]. destruct (Req_dec_T 0 0); [reflexivity|].
  exfalso; auto.
Qed.

Lemma demo_str_float_003 : str_float Demo.py (3 / 100) = "0.03".
Proof.
  cbn [Demo.py str_float]. destruct (Req_dec_T (3 / 100) 0); [lra|].
  destruct (Req_dec_T (3 / 100) (3 / 100)); [reflexivity|].
  exfalso; auto.
Qed.

(** The right-hand side of a first-order run on the concrete session. *)
Lemma rhs_is_observations_then_zeros_witness :
  exists b,
    (N_voxels <- fst (compute_N_voxels Demo.base (Demo.new (3 / 100) "TK1" "lsmr")) ;;
     _get_b Demo.base N_voxels) = Ok b
    /\ b = [3; 2; 0; 0; 0; 0; 0; 0].
Proof.
  destruct (@rhs_is_observations_then_zeros Demo.base Demo.py
              (Demo.new (3 / 100) "TK1" "lsmr") 6 demo_shapes
              (or_intror (conj eq_refl eq_refl)))
    as (b & H1 & H2 & _).
  exists b. split; [exact H1|exact H2].
Defined.

(** A run with a minimizer name that is not in the solver table. *)
Lemma failed_solve_leaves_volume_witness :
  exists s',
    run_reconstruction Demo.base Demo.py 0 1 (Demo.new (3 / 100) "TK0" "newton")
    = (Raise (KeyError "newton"), s')
    /\ _HR_volume_itk s' = [0; 0]
    /\ _HR_volume_sitk s' = [0; 0].
Proof.
  assert (H : exists s1,
             run_solver Demo.base Demo.py (Demo.new (3 / 100) "TK0" "newton")
             = (Raise (KeyError (_minimizer s1)), s1)
             /\ _minimizer s1 = "newton").
  { eexists. split.
    - eapply (@unknown_minimizer_raises Demo.base Demo.py
                (Demo.new (3 / 100) "TK0" "newton") _ demo_shapes
                (or_introl eq_refl)); reflexivity.
    - reflexivity. }
  destruct H as (s1 & H & Hm). rewrite Hm in H.
  destruct (@failed_solve_leaves_volume Demo.base Demo.py 0 1 _ _ _ H)
    as (E & Hi & Hs).
  exists s1. split; [exact E|]. split; [exact Hi|exact Hs].
Defined.


(** Printing the report after a run but before any statistics. *)
Lemma print_statistics_raises_before_statistics_witness :
  exists e s',
    print_statistics Demo.py
      (perform_all Demo.base Demo.py
         [RunReconstruction 0 1; PrintStatistics; SetRegularizationType "TK0"]
         (__init__ (Demo.after_super (3 / 100) "lsmr") "TK1"))
    = (Raise e, s').
Proof.
  apply (@print_statistics_raises_before_statistics Demo.base Demo.py
           (Demo.after_super (3 / 100) "lsmr") "TK1"
           [RunReconstruction 0 1; PrintStatistics; SetRegularizationType "TK0"]).
  reflexivity.
Defined.

(** C8 (as stated, it fails). With [alpha = 0] the file name does not hold
    the regularization type: the settings with TK0 and with TK1 get the
    same name. *)
Lemma filename_omits_reg_type_at_zero_alpha :
  get_setting_specific_filename Demo.base Demo.py
    (Demo.new 0 "TK0" "lsmr") "recon"
  = "recon_stacks1_lsmr_alpha0p0_itermax10"
  /\ get_setting_specific_filename Demo.base Demo.py
       (Demo.new 0 "TK1" "lsmr") "recon"
     = "recon_stacks1_lsmr_alpha0p0_itermax10".
Proof.
  split; rewrite filename_value;
    cbn [Demo.new __init__ Demo.after_super set_residual_ell2
         set_residual_prior set_reg_type _alpha _reg_type _minimizer _iter_max];
    rewrite demo_str_float_0;
    (destruct (Rlt_dec 0 0); [lra|reflexivity]).
Qed.

(** The names for [alpha = 0.03] and [alpha = 0] differ. *)
Lemma setting_specific_filename_properties_witness :
  get_setting_specific_filename Demo.base Demo.py
    (set_alpha 0 (Demo.new (3 / 100) "TK1" "lsmr")) "recon"
  <> get_setting_specific_filename Demo.base Demo.py
       (Demo.new (3 / 100) "TK1" "lsmr") "recon".
Proof.
  refine (proj2 (proj2 (proj2 (proj2
    (@setting_specific_filename_properties Demo.base Demo.py
       (Demo.new (3 / 100) "TK1" "lsmr") 0 "recon" _ _ _))))).
  - apply demo_float_text.
  - apply demo_float_text.
  - cbn [Demo.new __init__ Demo.after_super set_residual_ell2
         set_residual_prior set_reg_type _alpha].
    rewrite demo_str_float_0, demo_str_float_003. discriminate.
Defined.

End DemoInstances.

(** ** The masked residual of the registration and its Jacobian *)

Module RegistrationFacts.

Import Registration.

Section Facts.

Local Open Scope R_scope.

Variable itk : Filters.

Lemma product_rows_nth (g : list vec3) (T : list mat3) (i : nat) gi Ti :
  nth_error g i = Some gi -> nth_error T i = Some Ti ->
  nth_error (product_rows g T) i = Some (dot3 gi Ti).
Proof.
  unfold product_rows. revert T i.
  induction g as [|g0 g IH]; intros [|T0 T] [|i] Hg HT; cbn in *;
    try discriminate.
  - injection Hg as ->. injection HT as ->. reflexivity.
  - apply IH; assumption.
Qed.

Lemma skipn_nth {A : Type} (l : list A) (a : nat) (x : A) :
  nth_error l a = Some x -> skipn a l = x :: skipn (S a) l.
Proof.
  revert a. induction l as [|y l IH]; intros [|a] H; cbn in *;
    try discriminate.
  - injection H as ->. reflexivity.
  - apply IH. assumption.
Qed.

(** The loop over [range(a, a + n)] on a Jacobian whose first [a] rows are
    [pre]: it replaces the next [n] rows by the products. *)
Lemma fill_rows_seq (g : list vec3) (T : list mat3) (dof : nat) :
  (forall i gi Ti, nth_error g i = Some gi -> nth_error T i = Some Ti ->
     length (dot3 gi Ti) = dof) ->
  forall n a pre post,
    length pre = a -> (n <= length post)%nat ->
    (a + n <= length g)%nat -> (a + n <= length T)%nat ->
    Forall (fun row => length row = dof) post ->
    fill_rows g T (seq a n) (pre ++ post)
    = Ok (pre ++ firstn n (skipn a (product_rows g T)) ++ skipn n post).
Proof.
  intros Hdot. induction n as [|n IH]; intros a pre post Hpre Hn Hg HT Hrows.
  - reflexivity.
  - cbn [seq fill_rows].
    destruct post as [|old post]; [cbn in Hn; lia|].
    destruct (nth_error g a) as [gi|] eqn:Eg;
      [|apply nth_error_None in Eg; lia].
    destruct (nth_error T a) as [Ti|] eqn:ET;
      [|apply nth_error_None in ET; lia].
    unfold getrow at 1 2. rewrite Eg, ET. cbn [rbind].
    unfold setrow, getrow.
    rewrite nth_error_app2, Hpre, Nat.sub_diag by lia. cbn [nth_error rbind].
    rewrite broadcast_to_same
      by (rewrite (Hdot _ _ _ Eg ET); symmetry;
          apply (Forall_inv Hrows)).
    cbn [rbind].
    rewrite firstn_app, Hpre, Nat.sub_diag, firstn_O, app_nil_r.
    rewrite firstn_all2 by lia.
    rewrite skipn_app, Hpre, skipn_all2 by lia.
    replace (S a - a)%nat with 1%nat by lia. cbn [skipn app].
    change (pre ++ dot3 gi Ti :: post) with (pre ++ [dot3 gi Ti] ++ post).
    rewrite app_assoc.
    refine (eq_trans (IH (S a) (pre ++ [dot3 gi Ti]) post _ _ _ _ _) _).
    + rewrite length_app, Hpre. cbn. lia.
    + cbn in Hn. lia.
    + lia.
    + lia.
    + apply (Forall_inv_tail Hrows).
    + rewrite (skipn_nth _ _ (product_rows_nth _ _ _ Eg ET)).
      cbn [firstn skipn]. rewrite <- app_assoc. reflexivity.
Qed.

Lemma dot3_length (g : vec3) (M : mat3) (dof : nat) :
  (let '(r0, r1, r2) := M in
   length r0 = dof /\ length r1 = dof /\ length r2 = dof) ->
  length (dot3 g M) = dof.
Proof.
  destruct g as [[g0 g1] g2], M as [[r0 r1] r2]. intros (H0 & H1 & H2).
  unfold dot3. rewrite !zip_with_length; rewrite ?scalar_mul_length; try congruence.
  rewrite zip_with_length; rewrite ?scalar_mul_length; congruence.
Qed.

(** C9. With the fixed mask in use, the data-fit residual is the mask times
    the flattened difference between the fixed image and the output of the
    forward filter, and row [i] of the Jacobian of the residual is the row
    [g_i . T_i] of the forward Jacobian scaled by the same mask value and
    negated; the mask is applied outside the filter, to its output. *)
Theorem masked_residual_and_jacobian (self0 : Registration) (parameters : list R) :
  _use_fixed_mask self0 = true ->
  (_dof_transform self0 <= length parameters)%nat ->
  length (fixed_nda itk) = fixed_size_prod itk ->
  length (filter_output itk parameters) = fixed_size_prod itk ->
  length (fixed_mask_nda itk) = fixed_size_prod itk ->
  length (filter_jacobian itk parameters) = fixed_size_prod itk ->
  length (gradient_transform itk parameters) = fixed_size_prod itk ->
  Forall (fun M : mat3 =>
            let '(r0, r1, r2) := M in
            length r0 = _dof_transform self0
            /\ length r1 = _dof_transform self0
            /\ length r2 = _dof_transform self0)
         (gradient_transform itk parameters) ->
  _get_residual_data_fit itk (_initialize_class itk self0) parameters
  = Ok (zip_with Rmult
          (zip_with Rminus (fixed_nda itk) (filter_output itk parameters))
          (fixed_mask_nda itk))
  /\ _get_jacobian_residual_data_fit itk (_initialize_class itk self0) parameters
     = Ok (map masked_row
             (combine (product_rows (filter_jacobian itk parameters)
                                    (gradient_transform itk parameters))
                      (fixed_mask_nda itk))).
Proof.
  intros Hmask Hdof Hfixed Hout Hm Hg HT Hrows. split.
  - unfold _get_residual_data_fit, _initialize_class, get_nda_mask,
      _execute_oriented_gaussian_interpolate_image_filter, getattr.
    cbn [_use_fixed_mask _nda_mask _fixed_affine_transform_sitk rbind].
    rewrite Hmask.
    unfold sub. rewrite elementwise_same by congruence. cbn [rbind].
    unfold mul. rewrite elementwise_same
      by (rewrite zip_with_length; congruence).
    reflexivity.
  - unfold _get_jacobian_residual_data_fit, _initialize_class, get_nda_mask,
      _execute_oriented_gaussian_interpolate_image_filter, getattr.
    cbn [_use_fixed_mask _nda_mask _dof_transform _fixed_voxels
         _fixed_affine_transform_sitk rbind].
    rewrite Hmask, (proj2 (Nat.leb_le _ _) Hdof). cbn [rbind].
    assert (Hd : forall i gi Ti,
               nth_error (filter_jacobian itk parameters) i = Some gi ->
               nth_error (gradient_transform itk parameters) i = Some Ti ->
               length (dot3 gi Ti) = _dof_transform self0).
    { intros i gi Ti _ ETi. apply dot3_length.
      apply nth_error_In in ETi.
      apply (proj1 (Forall_forall _ _) Hrows). assumption. }
    assert (Hz : Forall (fun row : ndarray => length row = _dof_transform self0)
                   (repeat (zeros (_dof_transform self0)) (fixed_size_prod itk))).
    { apply Forall_forall. intros row Hin. apply repeat_spec in Hin.
      subst row. apply zeros_length. }
    assert (Hn : (fixed_size_prod itk
                  <= length (repeat (zeros (_dof_transform self0))
                               (fixed_size_prod itk)))%nat)
      by (rewrite repeat_length; lia).
    assert (Hg' : (0 + fixed_size_prod itk
                   <= length (filter_jacobian itk parameters))%nat) by lia.
    assert (HT' : (0 + fixed_size_prod itk
                   <= length (gradient_transform itk parameters))%nat) by lia.
    pose proof (@fill_rows_seq _ _ _ Hd (fixed_size_prod itk) 0 [] _
                  eq_refl Hn Hg' HT' Hz) as Hfill.
    cbn [app skipn] in Hfill. rewrite Hfill. cbn [rbind].
    rewrite skipn_all2 by (rewrite repeat_length; lia).
    rewrite app_nil_r, firstn_all2
      by (unfold product_rows; rewrite length_map, length_combine; lia).
    unfold mul_rows. rewrite (proj2 (Nat.eqb_eq _ _)).
    + cbn [rbind]. rewrite map_map. unfold masked_row. apply f_equal.
      apply map_ext. intros [row m]. reflexivity.
    + unfold product_rows. rewrite length_map, length_combine. lia.
Qed.

End Facts.

(** The registration problem of two voxels: the masked-out voxel has
    residual zero and a zero row in the Jacobian. *)
Lemma masked_residual_and_jacobian_witness :
  _get_residual_data_fit RegistrationDemo.itk
    (_initialize_class RegistrationDemo.itk (__init__ RegistrationDemo.itk true))
    [0; 0; 0; 0; 0; 0]%R
  = Ok (zip_with Rmult (zip_with Rminus [5; 7] [1; 2]) [1; 0])%R.
Proof.
  refine (proj1 (@masked_residual_and_jacobian RegistrationDemo.itk
                   (__init__ RegistrationDemo.itk true)
                   [0; 0; 0; 0; 0; 0]%R _ _ _ _ _ _ _ _)).
  - reflexivity.
  - cbn. lia.
  - reflexivity.
  - reflexivity.
  - reflexivity.
  - reflexivity.
  - reflexivity.
  - repeat constructor.
Defined.

End RegistrationFacts.

(** ** Further properties of the solver *)

Section SliceFacts.

Lemma clip_index_le (len : nat) (i : Z) : (clip_index len i <= len)%nat.
Proof.
  unfold clip_index. destruct (i <? 0)%Z eqn:E.
  - apply Z.ltb_lt in E. lia.
  - apply Nat.le_min_r.
Qed.

Lemma broadcast_to_length (n : nat) (v w : ndarray) :
  broadcast_to n v = Ok w -> length w = n.
Proof.
  unfold broadcast_to. destruct (length v =? n)%nat eqn:E.
  - intros H. injection H as <-. apply Nat.eqb_eq. assumption.
  - destruct v as [|c [|d v]]; intros H; try discriminate.
    injection H as <-. apply repeat_length.
Qed.

(** A slice assignment that returns never resizes the array. *)
Lemma setslice_length (a v a' : ndarray) (start stop : option Z) :
  setslice a start stop v = Ok a' -> length a' = length a.
Proof.
  unfold setslice.
  destruct (slice_bounds (length a) start stop) as [lo hi] eqn:E.
  assert (Hlo : (lo <= length a)%nat).
  { unfold slice_bounds in E. injection E as <- _.
    destruct start; [apply clip_index_le|lia]. }
  assert (Hhi : (hi <= length a)%nat).
  { unfold slice_bounds in E. injection E as _ <-.
    destruct stop; [apply clip_index_le|lia]. }
  destruct (broadcast_to (hi - lo) v) as [w|e] eqn:Ew; cbn [rbind];
    intros H; [|discriminate].
  injection H as <-. apply broadcast_to_length in Ew.
  rewrite !length_app, length_firstn, length_skipn, Ew. lia.
Qed.

End SliceFacts.

Section MoreSolverFacts.

Local Open Scope R_scope.
Local Open Scope string_scope.
Local Open Scope list_scope.

Variable base : Solver.
Variable py : Builtins.

Local Abbreviation N := (_N_voxels_HR_volume base).
Local Abbreviation Ns := (_N_total_slice_voxels base).

(** X5. Whatever the inherited operators return, a forward evaluation that
    returns has [N_total_slice_voxels + N_voxels] entries, and a right-hand
    side that returns has the [N_voxels] entries it was asked for. *)
Theorem augmented_sizes_when_returned
  (x Ax b : ndarray) (alpha : R) (N_voxels : nat) :
  (_A_TK0 base x alpha = Ok Ax -> length Ax = (Ns + N)%nat)
  /\ (_get_b base N_voxels = Ok b -> length b = N_voxels).
Proof.
  split.
  - unfold _A_TK0.
    destruct (setslice (zeros (Ns + N)) (Some 0%Z) (Some (- Z.of_nat N)%Z)
                (_MA base x)) as [a1|e] eqn:E1; cbn [rbind]; [|discriminate].
    destruct (setslice a1 (Some (- Z.of_nat N)%Z) None
                (scalar_mul (sqrt alpha) x)) as [a2|e] eqn:E2; cbn [rbind];
      [|discriminate].
    intros H. injection H as <-.
    rewrite (setslice_length _ _ _ _ E2), (setslice_length _ _ _ _ E1).
    apply zeros_length.
  - unfold _get_b.
    destruct (setslice (zeros N_voxels) (Some 0%Z) (Some (Z.of_nat Ns))
                (_get_M_y base)) as [a1|e] eqn:E1; cbn [rbind]; [|discriminate].
    intros H. injection H as <-.
    rewrite (setslice_length _ _ _ _ E1). apply zeros_length.
Qed.

(** X6. When the masked observations have neither the length of the slice
    [b[0:N_total_slice_voxels]] nor a single entry, [_get_b] raises
    NumPy's broadcast error; this is so whenever the requested size is
    below the number of stacked slice voxels. *)
Theorem get_b_rejects_mismatched_observations (N_voxels : nat) :
  length (_get_M_y base) <> Nat.min Ns N_voxels ->
  length (_get_M_y base) <> 1%nat ->
  _get_b base N_voxels = Raise (ValueError "could not broadcast input array").
Proof.
  intros H1 H2. unfold _get_b, setslice, slice_bounds, clip_index.
  rewrite zeros_length.
  replace (0 <? 0)%Z with false by reflexivity.
  replace (Z.of_nat Ns <? 0)%Z with false by (symmetry; apply Z.ltb_ge; lia).
  rewrite Nat2Z.id. cbn [Z.to_nat Nat.min]. rewrite Nat.sub_0_r.
  unfold broadcast_to.
  rewrite (proj2 (Nat.eqb_neq _ _) H1).
  destruct (_get_M_y base) as [|c [|d v]]; cbn in *; try reflexivity.
  contradiction.
Qed.

Lemma getitem_two_unknown {V : Type} (a b : V) (key : string) :
  in_list key ["TK0"; "TK1"] = false ->
  getitem [("TK0", a); ("TK1", b)] key = Raise (KeyError key).
Proof.
  unfold in_list. cbn [existsb getitem]. intros H.
  apply orb_false_elim in H. destruct H as [H0 H].
  apply orb_false_elim in H. destruct H as [H1 _].
  rewrite String.eqb_sym in H0. rewrite String.eqb_sym in H1.
  rewrite H0, H1. reflexivity.
Qed.

Lemma getitem_two_known {V : Type} (a b : V) (key : string) :
  in_list key ["TK0"; "TK1"] = true ->
  exists f, getitem [("TK0", a); ("TK1", b)] key = Ok f.
Proof.
  unfold in_list. cbn [existsb getitem]. intros H.
  rewrite (String.eqb_sym key "TK0"), (String.eqb_sym key "TK1") in H.
  destruct (String.eqb "TK0" key); [eexists; reflexivity|].
  destruct (String.eqb "TK1" key); [eexists; reflexivity|].
  discriminate.
Qed.

(** X3. With a regularization type outside the tables, both solver
    closures raise [KeyError] with that type on every call;
    [compute_statistics] raises it too, after it has already stored the
    data residual and without touching the prior residual; and
    [get_final_cost] raises it whenever the prior residual is not cached. *)
Theorem unknown_reg_type_raises_key_error (s : TikhonovSolver) (x : ndarray) :
  in_list (_reg_type s) ["TK0"; "TK1"] = false ->
  A_fw base s x = Raise (KeyError (_reg_type s))
  /\ A_bw base s x = Raise (KeyError (_reg_type s))
  /\ compute_statistics base s
     = (Raise (KeyError (_reg_type s)),
        set_residual_ell2
          (Some (_get_residual_ell2 base (_HR_volume_sitk s))) s)
  /\ (_residual_prior s = None ->
      fst (get_final_cost base s) = Raise (KeyError (_reg_type s))).
Proof.
  intros H.
  assert (Hc : compute_statistics base s
     = (Raise (KeyError (_reg_type s)),
        set_residual_ell2
          (Some (_get_residual_ell2 base (_HR_volume_sitk s))) s)).
  { unfold compute_statistics, bind, get, modify, lift. cbn [fst snd].
    unfold _get_residual_prior. rewrite getitem_two_unknown by assumption.
    reflexivity. }
  split; [|split; [|split]].
  - unfold A_fw, _A. rewrite getitem_two_unknown by assumption. reflexivity.
  - unfold A_bw, _A_adj. rewrite getitem_two_unknown by assumption. reflexivity.
  - exact Hc.
  - intros Hp. rewrite get_final_cost_recomputes by (right; assumption).
    unfold bind at 1. rewrite Hc. reflexivity.
Qed.

Lemma compute_statistics_keeps (X : Type) (field : TikhonovSolver -> X) :
  (forall v s, field (set_residual_ell2 v s) = field s) ->
  (forall v s, field (set_residual_prior v s) = field s) ->
  keeps field (compute_statistics base).
Proof.
  intros H1 H2. unfold compute_statistics.
  apply keeps_bind; [apply keeps_get|intros s0].
  apply keeps_bind; [apply keeps_modify; intros; apply H1|intros ?].
  apply keeps_bind; [apply keeps_lift|intros f].
  apply keeps_bind; [apply keeps_lift|intros p].
  apply keeps_modify; intros; apply H2.
Qed.

Lemma get_final_cost_keeps (X : Type) (field : TikhonovSolver -> X) :
  (forall v s, field (set_residual_ell2 v s) = field s) ->
  (forall v s, field (set_residual_prior v s) = field s) ->
  keeps field (get_final_cost base).
Proof.
  intros H1 H2. unfold get_final_cost.
  apply keeps_bind; [apply keeps_get|intros s0].
  apply keeps_bind.
  - destruct (_residual_ell2 s0); [destruct (_residual_prior s0)|];
      try apply keeps_ret; apply compute_statistics_keeps; assumption.
  - intros ?. apply keeps_bind; [apply keeps_get|intros s1]. apply keeps_lift.
Qed.

Lemma perform_keeps_valid_reg_type (c : call) (s : TikhonovSolver) :
  in_list (_reg_type s) ["TK0"; "TK1"] = true ->
  in_list (_reg_type (perform base py c s)) ["TK0"; "TK1"] = true.
Proof.
  intros H. destruct c; cbn [perform].
  - unfold set_regularization_type.
    destruct (in_list reg_type ["TK0"; "TK1"]) eqn:E; cbn; assumption.
  - exact H.
  - rewrite (compute_statistics_keeps _reg_type) by reflexivity. exact H.
  - rewrite (get_final_cost_keeps _reg_type) by reflexivity. exact H.
  - rewrite (print_statistics_keeps py _reg_type) by reflexivity. exact H.
  - exact H.
  - rewrite (run_reconstruction_keeps base py _reg_type) by reflexivity. exact H.
Qed.

(** X2. A solver constructed with ['TK0'] or ['TK1'] keeps a valid
    regularization type through every sequence of calls of its methods,
    rejected setter calls included, so each of its three dispatch tables
    has an entry for the stored type. *)
Theorem reg_type_stays_valid
  (after_super : TikhonovSolver) (reg_type : string) (calls : list call) :
  in_list reg_type ["TK0"; "TK1"] = true ->
  in_list (_reg_type (perform_all base py calls (__init__ after_super reg_type)))
    ["TK0"; "TK1"] = true
  /\ (exists f, getitem (_A base)
        (_reg_type (perform_all base py calls (__init__ after_super reg_type)))
      = Ok f)
  /\ (exists f, getitem (_A_adj base)
        (_reg_type (perform_all base py calls (__init__ after_super reg_type)))
      = Ok f)
  /\ (exists f, getitem (_get_residual_prior base)
        (_reg_type (perform_all base py calls (__init__ after_super reg_type)))
      = Ok f).
Proof.
  intros H.
  assert (Hv : in_list
                 (_reg_type (perform_all base py calls (__init__ after_super reg_type)))
                 ["TK0"; "TK1"] = true).
  { assert (H0 : in_list (_reg_type (__init__ after_super reg_type))
                   ["TK0"; "TK1"] = true) by exact H.
    revert H0. generalize (__init__ after_super reg_type).
    induction calls as [|c calls IH]; intros s0 H0; cbn.
    - exact H0.
    - apply IH. apply perform_keeps_valid_reg_type. exact H0. }
  split; [exact Hv|].
  split; [|split]; apply getitem_two_known; exact Hv.
Qed.

End MoreSolverFacts.

Section SumFacts.

Local Open Scope R_scope.

Lemma sum_square_nonneg (a : ndarray) : 0 <= sum (square a).
Proof.
  induction a as [|x a IH]; [cbn; lra|].
  change (0 <= x * x + sum (square a)).
  pose proof (Rle_0_sqr x) as Hx. unfold Rsqr in Hx. lra.
Qed.

Lemma mul_scalar_0 (a : ndarray) : mul_scalar a 0 = zeros (length a).
Proof.
  unfold zeros. induction a as [|v a IH]; simpl; [reflexivity|].
  rewrite IH. f_equal. ring.
Qed.

Lemma zip_plus_zeros (a : ndarray) : zip_with Rplus a (zeros (length a)) = a.
Proof.
  unfold zeros. induction a as [|v a IH]; simpl; [reflexivity|].
  rewrite IH. f_equal. ring.
Qed.

End SumFacts.

Section OperatorAlgebra.

Local Open Scope R_scope.

Variable base : Solver.

Local Abbreviation N := (_N_voxels_HR_volume base).
Local Abbreviation Ns := (_N_total_slice_voxels base).

Hypothesis shapes : shapes_ok base.

(** X4. Applying the TK0 adjoint to the TK0 forward image of [x] reads the
    regularization block back as it was written: the result is the data-fit
    adjoint of that image plus [(sqrt(alpha) * x) * sqrt(alpha)], so the
    square root of the weight enters twice, once from each operator. *)
Theorem adjoint_reads_back_regularization_block (x : ndarray) (alpha : R) :
  0 <= alpha -> length x = N ->
  exists Ax,
    _A_TK0 base x alpha = Ok Ax
    /\ _A_adj_TK0 base Ax alpha
       = Ok (zip_with Rplus (_A_adj_M base Ax)
               (mul_scalar (scalar_mul (sqrt alpha) x) (sqrt alpha))).
Proof.
  intros Ha Hx. eexists. split; [apply A_TK0_value; assumption|].
  pose proof (MA_length shapes x Hx) as HMA.
  rewrite A_adj_TK0_value
    by (assumption || (rewrite length_app, scalar_mul_length; lia)).
  rewrite skipn_app, skipn_all2, HMA, Nat.sub_diag by lia.
  reflexivity.
Qed.

(** X13. Without regularization the TK0 adjoint is the data-fit adjoint
    alone: the last [N_voxels] entries of its argument contribute
    nothing. *)
Theorem adjoint_without_regularization (z : ndarray) :
  length z = (Ns + N)%nat ->
  _A_adj_TK0 base z 0 = Ok (_A_adj_M base z).
Proof.
  intros Hz. rewrite A_adj_TK0_value by assumption.
  rewrite sqrt_0, mul_scalar_0, length_skipn.
  replace (length z - Ns)%nat with (length (_A_adj_M base z))
    by (rewrite (A_adj_M_length shapes); lia).
  rewrite zip_plus_zeros. reflexivity.
Qed.

End OperatorAlgebra.

Section EmptyVolume.

Variable base : Solver.

(** X12. On a grid without voxels the slice [A_x[0:-N_voxels]] is
    [A_x[0:0]], the empty slice, so [_A_TK0] raises NumPy's broadcast error
    as soon as the masked forward model returns two or more entries. *)
Theorem A_TK0_raises_on_empty_volume (x : ndarray) (alpha : R) :
  _N_voxels_HR_volume base = 0%nat ->
  (2 <= length (_MA base x))%nat ->
  _A_TK0 base x alpha = Raise (ValueError "could not broadcast input array").
Proof.
  intros HN HMA. unfold _A_TK0, setslice, slice_bounds, clip_index.
  rewrite HN. cbn [Z.of_nat Z.opp Z.ltb Z.compare Z.to_nat Nat.min Nat.sub].
  unfold broadcast_to.
  destruct (_MA base x) as [|a [|b v]]; cbn in HMA; try lia.
  reflexivity.
Qed.

End EmptyVolume.

Section MoreStatistics.

Local Open Scope R_scope.
Local Open Scope string_scope.
Local Open Scope list_scope.

Variable base : Solver.
Variable py : Builtins.

(** What a call of [compute_statistics] that returns has stored. *)
Lemma compute_statistics_returns (s s' : TikhonovSolver) :
  compute_statistics base s = (Ok tt, s') ->
  exists p,
    0 <= p
    /\ s' = set_residual_prior (Some p)
              (set_residual_ell2
                 (Some (_get_residual_ell2 base (_HR_volume_sitk s))) s).
Proof.
  unfold compute_statistics, bind, get, modify, lift. cbn [fst snd].
  unfold _get_residual_prior. cbn [getitem].
  destruct (String.eqb "TK0" (_reg_type s)).
  - cbn. intros H. injection H as <-. eexists. split; [|reflexivity].
    apply sum_square_nonneg.
  - destruct (String.eqb "TK1" (_reg_type s)); [|discriminate].
    unfold _get_residual_prior_TK1.
    destruct (reshape_HR base (_HR_volume_sitk s)) as [v|e]; cbn;
      [|discriminate].
    intros H. injection H as <-. eexists. split; [|reflexivity].
    pose proof (sum_square_nonneg (Dx (_differential_operations base) v)).
    pose proof (sum_square_nonneg (Dy (_differential_operations base) v)).
    pose proof (sum_square_nonneg (Dz (_differential_operations base) v)).
    lra.
Qed.

(** X9. A call of [run_reconstruction], whether it returns or raises,
    changes none of the settings and none of the cached residuals. *)
Theorem run_reconstruction_keeps_settings
  (time_start time_end : R) (s : TikhonovSolver) :
  _alpha (snd (run_reconstruction base py time_start time_end s)) = _alpha s
  /\ _iter_max (snd (run_reconstruction base py time_start time_end s))
     = _iter_max s
  /\ _minimizer (snd (run_reconstruction base py time_start time_end s))
     = _minimizer s
  /\ _deconvolution_mode (snd (run_reconstruction base py time_start time_end s))
     = _deconvolution_mode s
  /\ _reg_type (snd (run_reconstruction base py time_start time_end s))
     = _reg_type s
  /\ _residual_ell2 (snd (run_reconstruction base py time_start time_end s))
     = _residual_ell2 s
  /\ _residual_prior (snd (run_reconstruction base py time_start time_end s))
     = _residual_prior s.
Proof.
  repeat split; apply run_reconstruction_keeps; reflexivity.
Qed.

(** X10. When the minimizer has returned and the ITK image has been built
    but the conversion to SimpleITK raises, the call raises that exception
    with the two images of the volume out of step: [.itk] is the new
    estimate, [.sitk] still the old one, and the elapsed time is set. *)
Theorem failed_conversion_splits_volume
  (time_start time_end : R) (s s1 : TikhonovSolver) (x itk : ndarray) (e : exn) :
  run_solver base py s = (Ok x, s1) ->
  _get_itk_image_from_array_vec base x (_HR_volume_itk s1) = Ok itk ->
  get_sitk_from_itk_image base itk = Raise e ->
  exists s',
    run_reconstruction base py time_start time_end s = (Raise e, s')
    /\ _HR_volume_itk s' = itk
    /\ _HR_volume_sitk s' = _HR_volume_sitk s
    /\ _elapsed_time_sec s' = Some (time_end - time_start).
Proof.
  intros Hrun Hitk Hsitk.
  assert (Hv : _HR_volume_sitk s1 = _HR_volume_sitk s).
  { change s1 with (snd (Ok x, s1)). rewrite <- Hrun.
    apply run_solver_keeps. reflexivity. }
  eexists. split.
  - unfold run_reconstruction, bind at 1. rewrite Hrun.
    unfold bind, modify, get, lift. cbn. rewrite Hitk. cbn. rewrite Hsitk.
    reflexivity.
  - split; [reflexivity|]. split; [exact Hv|reflexivity].
Qed.

(** A run that returns has set the elapsed time. *)
Lemma completed_run_sets_elapsed_time
  (time_start time_end : R) (s s1 : TikhonovSolver) :
  run_reconstruction base py time_start time_end s = (Ok tt, s1) ->
  _elapsed_time_sec s1 = Some (time_end - time_start).
Proof.
  unfold run_reconstruction, bind at 1.
  destruct (run_solver base py s) as [[x|e] s0]; [|discriminate].
  unfold bind, modify, get, lift. cbn.
  destruct (_get_itk_image_from_array_vec base x (_HR_volume_itk s0))
    as [itk|e]; cbn; [|discriminate].
  destruct (get_sitk_from_itk_image base itk) as [sitk|e]; cbn;
    [|discriminate].
  intros H. injection H as <-. reflexivity.
Qed.

(** X11. After a run that returned and a [compute_statistics] that
    returned, [print_statistics] returns: it prints four lines and changes
    nothing else. *)
Theorem report_after_run_and_statistics
  (time_start time_end : R) (s s1 s2 : TikhonovSolver) :
  run_reconstruction base py time_start time_end s = (Ok tt, s1) ->
  compute_statistics base s1 = (Ok tt, s2) ->
  exists l1 l2 l3 l4,
    print_statistics py s2
    = (Ok tt, fold_left (fun s line => add_stdout line s) [l1; l2; l3; l4] s2).
Proof.
  intros Hrun Hstat.
  pose proof (completed_run_sets_elapsed_time _ _ _ Hrun) as Ht.
  destruct (compute_statistics_returns _ Hstat) as (p & _ & ->).
  unfold print_statistics, bind, get, print, modify, lift.
  cbn [fst snd _elapsed_time_sec _residual_ell2 _residual_prior
       set_residual_prior set_residual_ell2].
  rewrite Ht. cbn.
  eexists; eexists; eexists; eexists. reflexivity.
Qed.

End MoreStatistics.

(** ** The further properties on the concrete session *)

Section MoreDemoInstances.

Local Open Scope R_scope.
Local Open Scope string_scope.
Local Open Scope list_scope.

Lemma demo_failing_conversion_shapes : shapes_ok Demo.base_failing_conversion.
Proof.
  split; cbn.
  - lia.
  - intros [|x0 [|x1 [|x2 x]]] H; cbn in *; try discriminate; reflexivity.
  - intros [|z0 [|z1 z]] H; cbn in *; try lia; reflexivity.
  - reflexivity.
Qed.

Lemma reg_type_stays_valid_witness :
  in_list
    (_reg_type
       (perform_all Demo.base Demo.py
          [SetRegularizationType "TK2"; RunReconstruction 0 1; ComputeStatistics]
          (__init__ (Demo.after_super (3 / 100) "lsmr") "TK1")))
    ["TK0"; "TK1"] = true.
Proof.
  exact (proj1 (@reg_type_stays_valid Demo.base Demo.py
                  (Demo.after_super (3 / 100) "lsmr") "TK1"
                  [SetRegularizationType "TK2"; RunReconstruction 0 1;
                   ComputeStatistics] eq_refl)).
Defined.

Lemma unknown_reg_type_raises_key_error_witness :
  A_fw Demo.base (Demo.new (3 / 100) "TK2" "lsmr") [1; 2] = Raise (KeyError "TK2").
Proof.
  exact (proj1 (@unknown_reg_type_raises_key_error Demo.base
                  (Demo.new (3 / 100) "TK2" "lsmr") [1; 2] eq_refl)).
Defined.

Lemma adjoint_reads_back_regularization_block_witness :
  exists Ax,
    _A_TK0 Demo.base [1; 2] (3 / 100) = Ok Ax
    /\ _A_adj_TK0 Demo.base Ax (3 / 100)
       = Ok (zip_with Rplus (Demo.A_adj_M Ax)
               (mul_scalar (scalar_mul (sqrt (3 / 100)) [1; 2]) (sqrt (3 / 100)))).
Proof.
  refine (@adjoint_reads_back_regularization_block Demo.base demo_shapes
            [1; 2] (3 / 100) _ _).
  - lra.
  - reflexivity.
Defined.

Lemma augmented_sizes_when_returned_witness :
  length (Demo.MA [1; 2] ++ scalar_mul (sqrt (3 / 100)) [1; 2]) = 4%nat.
Proof.
  exact (proj1 (@augmented_sizes_when_returned Demo.base [1; 2]
                  (Demo.MA [1; 2] ++ scalar_mul (sqrt (3 / 100)) [1; 2])
                  [] (3 / 100) 0)
               (@A_TK0_value Demo.base demo_shapes [1; 2] (3 / 100) eq_refl)).
Defined.

Lemma get_b_rejects_mismatched_observations_witness :
  _get_b Demo.base 1 = Raise (ValueError "could not broadcast input array").
Proof.
  refine (@get_b_rejects_mismatched_observations Demo.base 1 _ _);
    cbn; lia.
Defined.

Lemma failed_conversion_splits_volume_witness :
  exists s',
    run_reconstruction Demo.base_failing_conversion Demo.py 0 1
      (Demo.new (3 / 100) "TK0" "lsmr")
    = (Raise (ValueError "conversion to SimpleITK failed"), s')
    /\ _HR_volume_itk s' = [1; 1]
    /\ _HR_volume_sitk s' = [0; 0].
Proof.
  assert (H : exists s1,
             run_solver Demo.base_failing_conversion Demo.py
               (Demo.new (3 / 100) "TK0" "lsmr") = (Ok [1; 1], s1)
             /\ _HR_volume_itk s1 = [0; 0]).
  { eexists. split.
    - eapply (@run_solver_value Demo.base_failing_conversion Demo.py
                (Demo.new (3 / 100) "TK0" "lsmr") _ 2 (fun _ _ _ _ => Ok [1; 1])
                demo_failing_conversion_shapes
                (or_introl (conj eq_refl eq_refl))); reflexivity.
    - reflexivity. }
  destruct H as (s1 & H & Hitk).
  destruct (@failed_conversion_splits_volume Demo.base_failing_conversion Demo.py
              0 1 _ s1 [1; 1] [1; 1]
              (ValueError "conversion to SimpleITK failed") H)
    as (s' & E & Hi & Hs & _).
  - rewrite Hitk. reflexivity.
  - reflexivity.
  - exists s'. split; [exact E|]. split; [exact Hi|exact Hs].
Defined.

Lemma report_after_run_and_statistics_witness :
  exists s1 s2 l1 l2 l3 l4,
    run_reconstruction Demo.base Demo.py 0 1 (Demo.new 0 "TK0" "lsmr") = (Ok tt, s1)
    /\ compute_statistics Demo.base s1 = (Ok tt, s2)
    /\ print_statistics Demo.py s2
       = (Ok tt, fold_left (fun s line => add_stdout line s) [l1; l2; l3; l4] s2).
Proof.
  destruct (demo_run 0 1 (Demo.new 0 "TK0" "lsmr") (x0:=0) (x1:=0))
    as (s1 & R1 & _ & _); try reflexivity.
  assert (Hrt : _reg_type s1 = "TK0").
  { change s1 with (snd (Ok tt, s1)). rewrite <- R1.
    rewrite (run_reconstruction_keeps Demo.base Demo.py _reg_type) by reflexivity.
    reflexivity. }
  pose proof (@compute_statistics_TK0 Demo.base s1 Hrt) as H2.
  destruct (@report_after_run_and_statistics Demo.base Demo.py 0 1 _ _ _ R1 H2)
    as (l1 & l2 & l3 & l4 & H3).
  eexists s1, _, l1, l2, l3, l4. split; [exact R1|]. split; [exact H2|exact H3].
Defined.

Lemma A_TK0_raises_on_empty_volume_witness :
  _A_TK0 Demo.base_empty_volume [] (3 / 100)
  = Raise (ValueError "could not broadcast input array").
Proof.
  refine (@A_TK0_raises_on_empty_volume Demo.base_empty_volume [] (3 / 100) _ _).
  - reflexivity.
  - cbn. lia.
Defined.

Lemma adjoint_without_regularization_witness :
  _A_adj_TK0 Demo.base [1; 2; 3; 4] 0 = Ok (Demo.A_adj_M [1; 2; 3; 4]).
Proof.
  exact (@adjoint_without_regularization Demo.base demo_shapes [1; 2; 3; 4] eq_refl).
Defined.

End MoreDemoInstances.

(** ** Further properties of the registration *)

Module MoreRegistrationFacts.

Import Registration.
Import RegistrationRun.

Section Facts.

Local Open Scope R_scope.

Variable itk : Filters.

Lemma demo_filter_shapes (parameters : list R) :
  (6 <= length parameters)%nat ->
  filter_shapes_ok RegistrationDemo.itk 6 parameters.
Proof.
  intros H. split; cbn; try reflexivity; try assumption.
  repeat constructor.
Qed.

(** The rows the loop of the Jacobian leaves behind, before masking. *)
Lemma jacobian_rows_filled (dof : nat) (parameters : list R) :
  filter_shapes_ok itk dof parameters ->
  fill_rows (filter_jacobian itk parameters) (gradient_transform itk parameters)
    (seq 0 (fixed_size_prod itk)) (repeat (zeros dof) (fixed_size_prod itk))
  = Ok (product_rows (filter_jacobian itk parameters)
                     (gradient_transform itk parameters)).
Proof.
  intros H.
  assert (Hd : forall i gi Ti,
             nth_error (filter_jacobian itk parameters) i = Some gi ->
             nth_error (gradient_transform itk parameters) i = Some Ti ->
             length (dot3 gi Ti) = dof).
  { intros i gi Ti _ ETi. apply RegistrationFacts.dot3_length.
    apply nth_error_In in ETi.
    apply (proj1 (Forall_forall _ _) (gradient_columns H)). assumption. }
  assert (Hz : Forall (fun row : ndarray => length row = dof)
                 (repeat (zeros dof) (fixed_size_prod itk))).
  { apply Forall_forall. intros row Hin. apply repeat_spec in Hin.
    subst row. apply zeros_length. }
  assert (Hn : (fixed_size_prod itk
                <= length (repeat (zeros dof) (fixed_size_prod itk)))%nat)
    by (rewrite repeat_length; lia).
  assert (Hg' : (0 + fixed_size_prod itk
                 <= length (filter_jacobian itk parameters))%nat)
    by (rewrite (jacobian_length H); lia).
  assert (HT' : (0 + fixed_size_prod itk
                 <= length (gradient_transform itk parameters))%nat)
    by (rewrite (gradient_length H); lia).
  pose proof (@RegistrationFacts.fill_rows_seq _ _ _ Hd (fixed_size_prod itk)
                0 [] _ eq_refl Hn Hg' HT' Hz) as Hfill.
  cbn [app skipn] in Hfill. rewrite Hfill.
  rewrite skipn_all2 by (rewrite repeat_length; lia).
  rewrite app_nil_r, firstn_all2; [reflexivity|].
  unfold product_rows.
  rewrite length_map, length_combine, (jacobian_length H), (gradient_length H).
  lia.
Qed.

Lemma product_rows_length (dof : nat) (parameters : list R) :
  filter_shapes_ok itk dof parameters ->
  length (product_rows (filter_jacobian itk parameters)
                       (gradient_transform itk parameters))
  = fixed_size_prod itk.
Proof.
  intros H. unfold product_rows.
  rewrite length_map, length_combine, (jacobian_length H), (gradient_length H).
  lia.
Qed.

Lemma masked_residual_value (self0 : Registration) (parameters : list R) :
  _use_fixed_mask self0 = true ->
  filter_shapes_ok itk (_dof_transform self0) parameters ->
  _get_residual_data_fit itk (_initialize_class itk self0) parameters
  = Ok (zip_with Rmult
          (zip_with Rminus (fixed_nda itk) (filter_output itk parameters))
          (fixed_mask_nda itk)).
Proof.
  intros Hmask H.
  unfold _get_residual_data_fit, _initialize_class, get_nda_mask,
    _execute_oriented_gaussian_interpolate_image_filter, getattr.
  cbn [_use_fixed_mask _nda_mask _fixed_affine_transform_sitk rbind].
  rewrite Hmask.
  unfold sub. rewrite elementwise_same
    by (rewrite (fixed_length H), (output_length H); reflexivity).
  cbn [rbind]. unfold mul. rewrite elementwise_same; [reflexivity|].
  rewrite zip_with_length;
    rewrite (fixed_length H), ?(output_length H), ?(mask_length H); reflexivity.
Qed.

Lemma masked_jacobian_value (self0 : Registration) (parameters : list R) :
  _use_fixed_mask self0 = true ->
  filter_shapes_ok itk (_dof_transform self0) parameters ->
  _get_jacobian_residual_data_fit itk (_initialize_class itk self0) parameters
  = Ok (map masked_row
          (combine (product_rows (filter_jacobian itk parameters)
                                 (gradient_transform itk parameters))
                   (fixed_mask_nda itk))).
Proof.
  intros Hmask H.
  unfold _get_jacobian_residual_data_fit, _initialize_class, get_nda_mask,
    _execute_oriented_gaussian_interpolate_image_filter, getattr.
  cbn [_use_fixed_mask _nda_mask _dof_transform _fixed_voxels
       _fixed_affine_transform_sitk rbind].
  rewrite Hmask, (proj2 (Nat.leb_le _ _) (parameters_length H)). cbn [rbind].
  rewrite (jacobian_rows_filled H). cbn [rbind].
  unfold mul_rows. rewrite (proj2 (Nat.eqb_eq _ _)).
  - cbn [rbind]. rewrite map_map. unfold masked_row. apply f_equal.
    apply map_ext. intros [row m]. reflexivity.
  - rewrite (product_rows_length H), (mask_length H). reflexivity.
Qed.

Lemma unmasked_residual_value (self0 : Registration) (parameters : list R) :
  _use_fixed_mask self0 = false ->
  filter_shapes_ok itk (_dof_transform self0) parameters ->
  _get_residual_data_fit itk (_initialize_class itk self0) parameters
  = Ok (zip_with Rminus (fixed_nda itk) (filter_output itk parameters)).
Proof.
  intros Hmask H.
  unfold _get_residual_data_fit, _initialize_class,
    _execute_oriented_gaussian_interpolate_image_filter, getattr.
  cbn [_use_fixed_mask _fixed_affine_transform_sitk rbind]. rewrite Hmask.
  unfold sub. rewrite elementwise_same
    by (rewrite (fixed_length H), (output_length H); reflexivity).
  reflexivity.
Qed.

Lemma unmasked_jacobian_value (self0 : Registration) (parameters : list R) :
  _use_fixed_mask self0 = false ->
  filter_shapes_ok itk (_dof_transform self0) parameters ->
  _get_jacobian_residual_data_fit itk (_initialize_class itk self0) parameters
  = Ok (map neg (product_rows (filter_jacobian itk parameters)
                              (gradient_transform itk parameters))).
Proof.
  intros Hmask H.
  unfold _get_jacobian_residual_data_fit, _initialize_class,
    _execute_oriented_gaussian_interpolate_image_filter, getattr.
  cbn [_use_fixed_mask _dof_transform _fixed_voxels
       _fixed_affine_transform_sitk rbind].
  rewrite Hmask, (proj2 (Nat.leb_le _ _) (parameters_length H)). cbn [rbind].
  rewrite (jacobian_rows_filled H). reflexivity.
Qed.


Lemma zip_mult_ones (a : ndarray) : zip_with Rmult a (repeat 1 (length a)) = a.
Proof.
  induction a as [|v a IH]; simpl; [reflexivity|].
  rewrite IH. f_equal. ring.
Qed.

Lemma mul_scalar_1 (row : ndarray) : mul_scalar row 1 = row.
Proof.
  unfold mul_scalar. rewrite <- (map_id row) at 2. apply map_ext.
  intros v. ring.
Qed.

Lemma combine_ones_rows (J : matrix) :
  map masked_row (combine J (repeat 1 (length J))) = map neg J.
Proof.
  induction J as [|row J IH]; simpl; [reflexivity|].
  rewrite IH. unfold masked_row at 1. cbn [fst snd].
  rewrite mul_scalar_1. reflexivity.
Qed.

(** X17. A mask of ones changes nothing: with it the masked residual and
    the masked Jacobian are the unmasked ones. *)
Theorem mask_of_ones_is_neutral (masked plain : Registration) (parameters : list R) :
  _use_fixed_mask masked = true -> _use_fixed_mask plain = false ->
  _dof_transform masked = _dof_transform plain ->
  fixed_mask_nda itk = repeat 1 (fixed_size_prod itk) ->
  filter_shapes_ok itk (_dof_transform masked) parameters ->
  _get_residual_data_fit itk (_initialize_class itk masked) parameters
  = _get_residual_data_fit itk (_initialize_class itk plain) parameters
  /\ _get_jacobian_residual_data_fit itk (_initialize_class itk masked) parameters
     = _get_jacobian_residual_data_fit itk (_initialize_class itk plain) parameters.
Proof.
  intros Hm Hp Hdof Hones H.
  assert (H' : filter_shapes_ok itk (_dof_transform plain) parameters)
    by (rewrite <- Hdof; exact H).
  rewrite (unmasked_residual_value plain Hp H'),
    (unmasked_jacobian_value plain Hp H'), (masked_residual_value masked Hm H),
    (masked_jacobian_value masked Hm H), Hones.
  split.
  - f_equal.
    replace (fixed_size_prod itk)
      with (length (zip_with Rminus (fixed_nda itk) (filter_output itk parameters)))
      by (rewrite zip_with_length;
          rewrite (fixed_length H), ?(output_length H); reflexivity).
    apply zip_mult_ones.
  - f_equal. rewrite <- (product_rows_length H) at 1. apply combine_ones_rows.
Qed.

(** X19. The residual and the Jacobian need an initialized object: on a
    newly constructed one they raise [AttributeError] for a parameter
    vector of the right size, since the attributes of the fixed image are
    only assigned by [_initialize_class]. The mask array is created only
    by an initialization that finds the mask switched on: when it is
    switched on after an initialization without it, the residual raises
    [AttributeError] for the mask array, until the object is initialized
    again, which every [run_registration] does first. *)
Theorem attributes_exist_only_after_initialization
  (use_mask : bool) (parameters : list R) :
  length parameters = number_of_parameters itk ->
  length (fixed_nda itk) = length (filter_output itk parameters) ->
  _get_residual_data_fit itk (__init__ itk use_mask) parameters
  = Raise (AttributeError "_fixed_affine_transform_sitk")
  /\ _get_jacobian_residual_data_fit itk (__init__ itk use_mask) parameters
     = Raise (AttributeError "_fixed_voxels")
  /\ _get_residual_data_fit itk
       (use_fixed_mask true (_initialize_class itk (__init__ itk false)))
       parameters
     = Raise (AttributeError "_nda_mask")
  /\ get_nda_mask
       (_initialize_class itk
          (use_fixed_mask true (_initialize_class itk (__init__ itk false))))
     = Ok (fixed_mask_nda itk).
Proof.
  intros _ H. split; [reflexivity|]. split; [reflexivity|].
  split; [|reflexivity].
  unfold _get_residual_data_fit, use_fixed_mask, _initialize_class, __init__,
    get_nda_mask, _execute_oriented_gaussian_interpolate_image_filter, getattr.
  cbn [_use_fixed_mask _nda_mask _fixed_affine_transform_sitk rbind].
  unfold sub. rewrite elementwise_same by assumption. reflexivity.
Qed.

Variable least_squares :
  (list R -> result ndarray) -> ndarray -> (list R -> result matrix) -> nat
  -> result ndarray.

(** X20. [print_statistics] raises [AttributeError] on a new object and
    after every run in which the optimizer raised, since only a completed
    run assigns the elapsed time; a failed run also leaves the parameters
    as they were, and a completed run stores the parameters the optimizer
    returned, after which the report prints. *)
Theorem registration_report_needs_completed_run
  (py : Builtins) (use_mask verbose : bool) (time_start time_end : R)
  (r : Session) :
  get_parameters (new itk use_mask verbose)
  = repeat None (number_of_parameters itk)
  /\ print_statistics py (new itk use_mask verbose)
     = Raise (AttributeError "_elapsed_time_sec")
  /\ (forall e r',
        run_registration itk least_squares time_start time_end r = (Raise e, r') ->
        get_parameters r' = get_parameters r
        /\ print_statistics py r' = print_statistics py r)
  /\ (forall r',
        run_registration itk least_squares time_start time_end r = (Ok tt, r') ->
        exists x line,
          get_parameters r' = map Some x
          /\ print_statistics py r' = Ok line).
Proof.
  split; [reflexivity|]. split; [reflexivity|].
  unfold run_registration. split.
  - intros e r' H0.
    destruct (least_squares _ _ _ _) as [x|e0]; [discriminate|].
    injection H0 as _ <-. split; reflexivity.
  - intros r' H0.
    destruct (least_squares _ _ _ _) as [x|e0]; [|discriminate].
    injection H0 as <-. exists x. eexists. split; reflexivity.
Qed.

Lemma initialize_class_idempotent (obj : Registration) :
  _initialize_class itk (_initialize_class itk obj) = _initialize_class itk obj.
Proof.
  unfold _initialize_class. cbn [_use_fixed_mask _dof_transform _nda_mask].
  destruct (_use_fixed_mask obj); reflexivity.
Qed.

(** X21. A run never starts from the parameters of an earlier run: the
    optimizer is always started at the zero vector with the freshly
    initialized object, so running again raises or returns as the first run
    did, and after a completed first run it stores the same parameters. *)
Theorem run_registration_does_not_warm_start
  (t0 t1 t2 t3 : R) (r : Session) :
  fst (run_registration itk least_squares t2 t3
         (snd (run_registration itk least_squares t0 t1 r)))
  = fst (run_registration itk least_squares t0 t1 r)
  /\ (fst (run_registration itk least_squares t0 t1 r) = Ok tt ->
      get_parameters
        (snd (run_registration itk least_squares t2 t3
                (snd (run_registration itk least_squares t0 t1 r))))
      = get_parameters (snd (run_registration itk least_squares t0 t1 r))).
Proof.
  destruct (least_squares
              (fun x => _get_residual_data_fit itk (_initialize_class itk (self r)) x)
              (zeros (_dof_transform (_initialize_class itk (self r))))
              (fun x => _get_jacobian_residual_data_fit itk
                          (_initialize_class itk (self r)) x)
              (if _use_verbose r then 2%nat else 0%nat)) as [x|e] eqn:E.
  - assert (H1 : run_registration itk least_squares t0 t1 r
                 = (Ok tt,
                    {| self := _initialize_class itk (self r);
                       _use_verbose := _use_verbose r;
                       _parameters := map Some x;
                       RegistrationRun._elapsed_time_sec := Some (t1 - t0) |}))
      by (unfold run_registration; rewrite E; reflexivity).
    rewrite H1. cbn [fst snd]. unfold run_registration.
    cbn [self _use_verbose _parameters]. rewrite initialize_class_idempotent, E.
    split; [reflexivity|]. intros _. reflexivity.
  - assert (H1 : run_registration itk least_squares t0 t1 r
                 = (Raise e,
                    {| self := _initialize_class itk (self r);
                       _use_verbose := _use_verbose r;
                       _parameters := _parameters r;
                       RegistrationRun._elapsed_time_sec :=
                         RegistrationRun._elapsed_time_sec r |}))
      by (unfold run_registration; rewrite E; reflexivity).
    rewrite H1. cbn [fst snd]. unfold run_registration.
    cbn [self _use_verbose _parameters]. rewrite initialize_class_idempotent, E.
    split; [reflexivity|]. intros H. discriminate.
Qed.

End Facts.

Section Instances.

Local Open Scope R_scope.

Lemma demo_full_mask_shapes (parameters : list R) :
  (6 <= length parameters)%nat ->
  filter_shapes_ok RegistrationDemo.itk_full_mask 6 parameters.
Proof.
  intros H. split; cbn; try reflexivity; try assumption.
  repeat constructor.
Qed.

Lemma six_parameters : (6 <= length [0; 0; 0; 0; 0; 0]%R)%nat.
Proof. cbn. lia. Qed.


Lemma mask_of_ones_is_neutral_witness :
  _get_residual_data_fit RegistrationDemo.itk_full_mask
    (_initialize_class RegistrationDemo.itk_full_mask
       (__init__ RegistrationDemo.itk_full_mask true)) [0; 0; 0; 0; 0; 0]
  = _get_residual_data_fit RegistrationDemo.itk_full_mask
      (_initialize_class RegistrationDemo.itk_full_mask
         (__init__ RegistrationDemo.itk_full_mask false)) [0; 0; 0; 0; 0; 0].
Proof.
  exact (proj1 (@mask_of_ones_is_neutral RegistrationDemo.itk_full_mask
                  (__init__ RegistrationDemo.itk_full_mask true)
                  (__init__ RegistrationDemo.itk_full_mask false)
                  [0; 0; 0; 0; 0; 0] eq_refl eq_refl eq_refl eq_refl
                  (@demo_full_mask_shapes _ six_parameters))).
Defined.

Lemma attributes_exist_only_after_initialization_witness :
  _get_residual_data_fit RegistrationDemo.itk
    (use_fixed_mask true
       (_initialize_class RegistrationDemo.itk (__init__ RegistrationDemo.itk false)))
    [0; 0; 0; 0; 0; 0]
  = Raise (AttributeError "_nda_mask").
Proof.
  exact (proj1 (proj2 (proj2
    (@attributes_exist_only_after_initialization RegistrationDemo.itk
       false [0; 0; 0; 0; 0; 0] eq_refl eq_refl)))).
Defined.

Lemma registration_report_needs_completed_run_witness :
  exists x line,
    get_parameters
      (snd (run_registration RegistrationDemo.itk
              RegistrationDemo.least_squares_at_start 0 1
              (new RegistrationDemo.itk true false)))
    = map Some x
    /\ print_statistics Demo.py
         (snd (run_registration RegistrationDemo.itk
                 RegistrationDemo.least_squares_at_start 0 1
                 (new RegistrationDemo.itk true false)))
       = Ok line.
Proof.
  refine (proj2 (proj2 (proj2
    (@registration_report_needs_completed_run RegistrationDemo.itk
       RegistrationDemo.least_squares_at_start Demo.py true false 0 1
       (new RegistrationDemo.itk true false)))) _ _).
  reflexivity.
Defined.

Lemma run_registration_does_not_warm_start_witness :
  get_parameters
    (snd (run_registration RegistrationDemo.itk
            RegistrationDemo.least_squares_at_start 1 2
            (snd (run_registration RegistrationDemo.itk
                    RegistrationDemo.least_squares_at_start 0 1
                    (new RegistrationDemo.itk true false)))))
  = get_parameters
      (snd (run_registration RegistrationDemo.itk
              RegistrationDemo.least_squares_at_start 0 1
              (new RegistrationDemo.itk true false))).
Proof.
  refine (proj2 (@run_registration_does_not_warm_start RegistrationDemo.itk
                   RegistrationDemo.least_squares_at_start 0 1 1 2
                   (new RegistrationDemo.itk true false)) _).
  reflexivity.
Defined.

End Instances.

End MoreRegistrationFacts.
